(** * SonicScribe: the [/api/generate] request handler

    A shallow embedding of [src/app/api/generate/route.ts]: the zod
    [requestSchema], and the [POST] handler that validates the payload,
    branches on the source mode, drives script generation and speech
    synthesis, and maps every failure to a JSON error response.

    Strings are JavaScript strings, that is sequences of UTF-16 code units.
    The collaborators the handler awaits ([request.json()], the two
    extractors, the OpenAI client) are fields of a [World] record giving the
    outcome of each call; every call the handler makes is recorded in a
    trace, so that "no extractor is invoked" is a statement about the
    trace. *)

From Stdlib Require Import List NArith ZArith Arith Bool String Ascii Lia Sorted.
Import ListNotations.

Set Implicit Arguments.

(* ================================================================= *)
(** ** JavaScript strings *)

Module JsString.

(** A string is the list of its UTF-16 code units. *)
Definition jsstring := list N.

(** An ASCII literal as a JavaScript string. *)
Definition js (s : string) : jsstring :=
  List.map N_of_ascii (list_ascii_of_string s).

Definition length (s : jsstring) : nat := List.length s.

Fixpoint eqb (s t : jsstring) : bool :=
  match s, t with
  | [], [] => true
  | c :: s', d :: t' => N.eqb c d && eqb s' t'
  | _, _ => false
  end.

(** [between lo hi c]: the code unit [c] lies in [lo .. hi]. *)
Definition between (lo hi c : N) : bool := N.leb lo c && N.leb c hi.

(** WhiteSpace and LineTerminator code points of ECMAScript, the ones
    [String.prototype.trim] removes; all of them are single code units. *)
Definition isWhiteSpace (c : N) : bool :=
  between 9 13 c            (* TAB, LF, VT, FF, CR *)
  || N.eqb c 32             (* SP *)
  || N.eqb c 160            (* NBSP *)
  || N.eqb c 5760           (* U+1680 *)
  || between 8192 8202 c    (* U+2000 .. U+200A *)
  || between 8232 8233 c    (* LS, PS *)
  || N.eqb c 8239           (* U+202F *)
  || N.eqb c 8287           (* U+205F *)
  || N.eqb c 12288          (* U+3000 *)
  || N.eqb c 65279.         (* U+FEFF *)

Fixpoint trimStart (s : jsstring) : jsstring :=
  match s with
  | c :: s' => if isWhiteSpace c then trimStart s' else s
  | [] => []
  end.

Definition trimEnd (s : jsstring) : jsstring := rev (trimStart (rev s)).

(** [s.trim()] *)
Definition trim (s : jsstring) : jsstring := trimEnd (trimStart s).

Fixpoint startsWith (s p : jsstring) : bool :=
  match p, s with
  | [], _ => true
  | d :: p', c :: s' => N.eqb c d && startsWith s' p'
  | _ :: _, [] => false
  end.

(** [s.includes(p)] *)
Fixpoint includes (s p : jsstring) : bool :=
  startsWith s p ||
  match s with
  | [] => false
  | _ :: s' => includes s' p
  end.

(** Truthiness of a string: only the empty string is falsy. *)
Definition truthy (s : jsstring) : bool :=
  match s with [] => false | _ :: _ => true end.

End JsString.
Import JsString.

(* ================================================================= *)
(** ** JSON values *)

(** The value [request.json()] resolves to.  A number keeps its literal:
    the handler and the schema only ever look at the type of a number. *)
#[warnings="-register-all"]
Inductive json : Type :=
| JNull
| JBool (b : bool)
| JNumber (literal : jsstring)
| JString (s : jsstring)
| JArray (items : list json)
| JObject (fields : list (jsstring * json)).

(** [data[key]] on a parsed JSON object: [None] is [undefined].  The
    fields stand for the own properties of the object, one per key; were a
    key listed twice, the first entry is the property. *)
Fixpoint get (key : jsstring) (fields : list (jsstring * json)) : option json :=
  match fields with
  | [] => None
  | (k, v) :: rest => if JsString.eqb k key then Some v else get key rest
  end.

(* ================================================================= *)
(** ** The zod combinators used by [requestSchema] *)

Module Zod.

(** zod's [ZodParsedType], as far as JSON input can reach it. *)
Inductive ParsedType :=
| t_undefined | t_null | t_boolean | t_number | t_string | t_array | t_object.

Definition getParsedType (v : option json) : ParsedType :=
  match v with
  | None => t_undefined
  | Some JNull => t_null
  | Some (JBool _) => t_boolean
  | Some (JNumber _) => t_number
  | Some (JString _) => t_string
  | Some (JArray _) => t_array
  | Some (JObject _) => t_object
  end.

(** What a check found wrong, before the message is chosen. *)
Inductive IssueCode :=
| invalid_type (expected : ParsedType) (received : ParsedType)
| invalid_enum_type (options : list jsstring) (received : ParsedType)
| invalid_enum_value (options : list jsstring) (received : jsstring)
| too_small (minimum : nat)
| too_big (maximum : nat)
| invalid_string_regex
| invalid_string_url.

Record ZodIssue := mkIssue {
  code : IssueCode;
  path : list jsstring;
  message : jsstring
}.

(** The two things zod brings from outside the repository: the default
    error map (the message of an issue raised by a check that was given
    no message of its own) and the URL check behind [.url()], which zod
    delegates to the platform's [URL] constructor. *)
Record Library := mkLibrary {
  errorMap : IssueCode -> jsstring;
  isUrl : jsstring -> bool
}.

(** A check chained on [z.string()], with its optional custom message. *)
Inductive StringCheck :=
| min (n : nat) (msg : option jsstring)
| max (n : nat) (msg : option jsstring)
| regex (test : jsstring -> bool) (msg : option jsstring)
| url (msg : option jsstring).

(** The result of parsing one value: the issues it added, in order, and
    the parsed value ([None] when parsing aborted). *)
Record Parsed (A : Type) := mkParsed {
  issues : list ZodIssue;
  value : option A
}.

Definition ZodType (A : Type) := list jsstring -> option json -> Parsed A.

Section WithLibrary.
Variable lib : Library.

Definition issue (c : IssueCode) (p : list jsstring) (msg : option jsstring)
  : ZodIssue :=
  mkIssue c p (match msg with Some m => m | None => errorMap lib c end).

(** Whether a check is violated by a string, and the code it reports. *)
Definition violates (c : StringCheck) (s : jsstring) : bool :=
  match c with
  | min n _ => Nat.ltb (JsString.length s) n
  | max n _ => Nat.ltb n (JsString.length s)
  | regex test _ => negb (test s)
  | url _ => negb (isUrl lib s)
  end.

Definition checkIssue (c : StringCheck) (p : list jsstring) : ZodIssue :=
  match c with
  | min n msg => issue (too_small n) p msg
  | max n msg => issue (too_big n) p msg
  | regex _ msg => issue invalid_string_regex p msg
  | url msg => issue invalid_string_url p msg
  end.

(** Every check runs, in the order it was chained; a failed check does
    not stop the later ones. *)
Fixpoint runChecks (cs : list StringCheck) (p : list jsstring) (s : jsstring)
  : list ZodIssue :=
  match cs with
  | [] => []
  | c :: cs' =>
      (if violates c s then [checkIssue c p] else []) ++ runChecks cs' p s
  end.

(** [z.string()] followed by its checks. *)
Definition string_ (cs : list StringCheck) : ZodType jsstring :=
  fun p v =>
    match v with
    | Some (JString s) => mkParsed (runChecks cs p s) (Some s)
    | _ => mkParsed [issue (invalid_type t_string (getParsedType v)) p None] None
    end.

(** [z.enum([...])], decoding the accepted literal with [decode]. *)
Definition enum (A : Type) (options : list jsstring)
           (decode : jsstring -> option A) : ZodType A :=
  fun p v =>
    match v with
    | Some (JString s) =>
        match decode s with
        | Some a => mkParsed [] (Some a)
        | None => mkParsed [issue (invalid_enum_value options s) p None] None
        end
    | _ => mkParsed [issue (invalid_enum_type options (getParsedType v)) p None]
                    None
    end.

(** [inner.default(d)]: [undefined] is replaced by [d] and parsed. *)
Definition default (A : Type) (inner : ZodType A) (d : json) : ZodType A :=
  fun p v =>
    match v with
    | None => inner p (Some d)
    | Some _ => inner p v
    end.

(** [inner.optional()], what [.partial()] wraps a key in. *)
Definition optional (A : Type) (inner : ZodType A) : ZodType (option A) :=
  fun p v =>
    match v with
    | None => mkParsed [] (Some None)
    | Some _ =>
        let r := inner p v in
        mkParsed (issues r) (option_map Some (value r))
    end.

End WithLibrary.

End Zod.

(* ================================================================= *)
(** ** [requestSchema] *)

Module Mode.
(** The literal union ["text" | "url" | "video"]. *)
Inductive t := text | url | video.

Definition options : list jsstring := [js "text"; js "url"; js "video"].

Definition decode (s : jsstring) : option t :=
  if JsString.eqb s (js "text") then Some text
  else if JsString.eqb s (js "url") then Some url
  else if JsString.eqb s (js "video") then Some video
  else None.
End Mode.

(** [parsed.data]: the inferred type of the schema. *)
Record GenerationRequest := mkRequest {
  mode : Mode.t;
  voice : jsstring;
  content : option jsstring;
  url : option jsstring;
  videoUrl : option jsstring
}.

Definition asciiLetter (c : N) : bool := between 65 90 c || between 97 122 c.

(** [/^[a-z-]+$/i.test(s)].  The [i] flag makes the class match a code
    unit whose canonical (upper-case) form is that of a member; a code unit
    from 128 on never canonicalises into ASCII, so the class matches the
    ASCII letters of either case and the hyphen. *)
Definition voiceRegex (s : jsstring) : bool :=
  truthy s && forallb (fun c => asciiLetter c || N.eqb c 45) s.

(** The result of [requestSchema.safeParse]. *)
Inductive SafeParse :=
| success (data : GenerationRequest)
| failure (error : list Zod.ZodIssue).

Section Schema.
Variable lib : Zod.Library.

Definition modeSchema : Zod.ZodType Mode.t :=
  Zod.enum lib Mode.options Mode.decode.

Definition voiceSchema : Zod.ZodType jsstring :=
  Zod.default
    (Zod.string_ lib
       [Zod.min 2 None;
        Zod.max 32 None;
        Zod.regex voiceRegex
          (Some (js "Voice id must be alphanumeric or hyphenated"))])
    (JString (js "alloy")).

Definition contentSchema : Zod.ZodType (option jsstring) :=
  Zod.optional
    (Zod.string_ lib
       [Zod.min 50 (Some (js "Provide at least 50 characters of text."))]).

Definition urlSchema : Zod.ZodType (option jsstring) :=
  Zod.optional (Zod.string_ lib [Zod.url None]).

Definition videoUrlSchema : Zod.ZodType (option jsstring) :=
  Zod.optional (Zod.string_ lib [Zod.url None]).

(** The issues of a payload object, key by key in the order of the
    shape: this is the order of [parsed.error.issues]. *)
Definition shapeIssues (fields : list (jsstring * json)) : list Zod.ZodIssue :=
  Zod.issues (modeSchema [js "mode"] (get (js "mode") fields))
  ++ Zod.issues (voiceSchema [js "voice"] (get (js "voice") fields))
  ++ Zod.issues (contentSchema [js "content"] (get (js "content") fields))
  ++ Zod.issues (urlSchema [js "url"] (get (js "url") fields))
  ++ Zod.issues (videoUrlSchema [js "videoUrl"] (get (js "videoUrl") fields)).

(** [requestSchema.safeParse(json)]: a non-object is one [invalid_type]
    issue; an object has each key of the shape parsed, unknown keys are
    dropped, and the parse succeeds when no key raised an issue. *)
Definition requestSchema (input : json) : SafeParse :=
  match input with
  | JObject fields =>
      match shapeIssues fields,
            Zod.value (modeSchema [js "mode"] (get (js "mode") fields)),
            Zod.value (voiceSchema [js "voice"] (get (js "voice") fields)),
            Zod.value (contentSchema [js "content"] (get (js "content") fields)),
            Zod.value (urlSchema [js "url"] (get (js "url") fields)),
            Zod.value (videoUrlSchema [js "videoUrl"] (get (js "videoUrl") fields))
      with
      | [], Some m, Some v, Some c, Some u, Some w => success (mkRequest m v c u w)
      | errs, _, _, _, _, _ => failure errs
      end
  | _ =>
      failure [Zod.issue lib
                 (Zod.invalid_type Zod.t_object (Zod.getParsedType (Some input)))
                 [] None]
  end.

End Schema.

(* ================================================================= *)
(** ** Responses, failures and collaborators *)

(** The two body shapes the handler passes to [NextResponse.json]. *)
Inductive Body :=
| error_body (error : jsstring)
| success_body (script audioBase64 : jsstring).

Record Response := mkResponse {
  body : Body;
  status : N
}.

(** [NextResponse.json(body)] answers 200 unless a status is given. *)
Definition NextResponse_json (b : Body) (init : option N) : Response :=
  mkResponse b (match init with Some s => s | None => 200%N end).

(** A thrown value: an [Error] instance with its message and stack, or
    anything else. *)
Inductive Thrown :=
| ErrorInstance (message stack : jsstring)
| OtherValue (v : json).

(** How an awaited call settles. *)
Inductive Outcome (A : Type) :=
| resolved (a : A)
| rejected (e : Thrown).
Arguments rejected {A} e.

Record PromptArgs := mkPromptArgs {
  sourceSummary : jsstring;
  prompt_mode : Mode.t;
  origin : option jsstring
}.

Record InputMessage := mkMessage {
  role : jsstring;
  message_content : jsstring
}.

Record ResponsesParams := mkResponsesParams {
  responses_model : jsstring;
  temperature : jsstring;           (* the literal 0.7 *)
  max_output_tokens : N;
  input : list InputMessage
}.

Record SpeechParams := mkSpeechParams {
  speech_model : jsstring;
  speech_voice : jsstring;
  speech_input : jsstring
}.

Record ScriptResponse := mkScriptResponse {
  output_text : option jsstring
}.

Record SpeechResponse := mkSpeechResponse {
  arrayBuffer : Outcome (list N)    (* the audio bytes *)
}.

(** The client [getOpenAIClient()] hands back: the OpenAI SDK, outside the
    repository. *)
Record OpenAI := mkOpenAI {
  responses_create : ResponsesParams -> Outcome ScriptResponse;
  audio_speech_create : SpeechParams -> Outcome SpeechResponse
}.

(** Modelled from the spec: [extractFromUrl] and [extractFromYouTube] of
    [src/lib/content.ts], which the handler imports, are missing.  Their
    contract is [extractFromUrl(url: string) -> SourceDocument |
    fails(ExtractionError)], and the same for [extractFromYouTube]: the
    call resolves with the extracted text, or fails with the error it
    throws (a failed fetch, empty content, an invalid video URL, an
    unavailable transcript).  The handler keeps the result in a
    [string | null] variable and tests it for falsiness, so the resolved
    value may also be null or empty. *)
Definition Extractor : Type := jsstring -> Outcome (option jsstring).

(** What one request meets outside the handler: the zod library, the
    parsed body of the request (or the error [request.json()] throws), the
    two extractors, and the helpers of [src/lib/prompt.ts] and
    [src/lib/openai.ts], which are missing too and are taken as they are
    called: either may throw, the second on absent credentials. *)
Record World := mkWorld {
  zod : Zod.Library;
  request_json : Outcome json;
  extractFromUrl : Extractor;
  extractFromYouTube : Extractor;
  buildScriptPrompt : PromptArgs -> Outcome jsstring;
  getOpenAIClient : Outcome OpenAI
}.

(* ================================================================= *)
(** ** [Buffer.prototype.toString("base64")] *)

Module Base64.

Definition alphabet : jsstring :=
  js "ABCDEFGHIJKLMNOPQRSTUVWXYZabcdefghijklmnopqrstuvwxyz0123456789+/".

Definition digit (n : N) : N := nth (N.to_nat n) alphabet 0%N.

Definition pad : N := 61%N.   (* '=' *)

Fixpoint encode (bytes : list N) : jsstring :=
  match bytes with
  | [] => []
  | [a] =>
      [digit (a / 4); digit ((a mod 4) * 16); pad; pad]
  | [a; b] =>
      [digit (a / 4); digit ((a mod 4) * 16 + b / 16);
       digit ((b mod 16) * 4); pad]
  | a :: b :: c :: rest =>
      [digit (a / 4); digit ((a mod 4) * 16 + b / 16);
       digit ((b mod 16) * 4 + c / 64); digit (c mod 64)] ++ encode rest
  end%N.

End Base64.

(* ================================================================= *)
(** ** The handler's effects *)

(** What the handler does to the outside, in order. *)
Inductive Event :=
| call_extractFromUrl (u : jsstring)
| call_extractFromYouTube (u : jsstring)
| call_getOpenAIClient
| call_responses_create (p : ResponsesParams)
| call_audio_speech_create (p : SpeechParams)
| call_arrayBuffer
| console_error (e : Thrown).

(** How a statement completes: normally with a value, by [return]ing the
    response, or by throwing. *)
Inductive Completion (A : Type) :=
| normal (a : A)
| returned (r : Response)
| threw (e : Thrown).
Arguments returned {A} r.
Arguments threw {A} e.

(** A piece of the handler: it extends the trace and completes. *)
Definition Handler (A : Type) := list Event -> Completion A * list Event.

Definition pure {A} (a : A) : Handler A := fun tr => (normal a, tr).

Definition bind {A B} (m : Handler A) (k : A -> Handler B) : Handler B :=
  fun tr =>
    match m tr with
    | (normal a, tr') => k a tr'
    | (returned r, tr') => (returned r, tr')
    | (threw e, tr') => (threw e, tr')
    end.

Notation "x <- m ;; k" := (bind m (fun x => k))
  (at level 61, m at next level, right associativity).
Notation "m ;;; k" := (bind m (fun _ => k))
  (at level 61, right associativity).

(** [return r;] *)
Definition return_ {A} (r : Response) : Handler A := fun tr => (returned r, tr).

(** A call whose outcome is read without being traced: reading the
    request's own body, and the pure prompt helper. *)
Definition settle {A} (o : Outcome A) : Handler A :=
  fun tr =>
    (match o with resolved a => normal a | rejected e => threw e end, tr).

(** A call to a collaborator: it is traced, then it resolves to a value
    or throws. *)
Definition call {A} (ev : Event) (o : Outcome A) : Handler A :=
  fun tr =>
    (match o with resolved a => normal a | rejected e => threw e end,
     tr ++ [ev]).

(** [console.error("[generate] error", error)] *)
Definition log (e : Thrown) : Handler unit :=
  fun tr => (normal tt, tr ++ [console_error e]).

(** [try { body } catch (error) { handler }] *)
Definition try_catch {A} (body : Handler A) (handler : Thrown -> Handler A)
  : Handler A :=
  fun tr =>
    match body tr with
    | (threw e, tr') => handler e tr'
    | other => other
    end.

(* ================================================================= *)
(** ** [POST] *)

(** Falsiness of a [string | null | undefined] value. *)
Definition falsy (v : option jsstring) : bool :=
  match v with
  | None => true
  | Some s => negb (truthy s)
  end.

Definition systemPrompt : jsstring :=
  js "You are an Emmy-award winning podcast showrunner and head writer. You craft structured, compelling scripts that balance storytelling flair with factual clarity.".

Definition scriptParams (scriptPrompt : jsstring) : ResponsesParams :=
  mkResponsesParams (js "gpt-4o-mini") (js "0.7") 1400
    [mkMessage (js "system") systemPrompt;
     mkMessage (js "user") scriptPrompt].

(** [error instanceof Error ? error.message : "Unexpected server error."] *)
Definition messageOf (error : Thrown) : jsstring :=
  match error with
  | ErrorInstance m _ => m
  | OtherValue _ => js "Unexpected server error."
  end.

(** The status the [catch] block picks from the message. *)
Definition statusOf (message : jsstring) : N :=
  if includes message (js "OPENAI_API_KEY") || includes message (js "Failed to fetch")
  then 500%N
  else 400%N.

(** The handler, run on an empty trace.  The [if / else if] chain on
    [mode] leaves [(sourceText, origin)] or returns; the type of [mode]
    makes the chain exhaustive. *)
Definition POST (w : World) : Completion Empty_set * list Event :=
  try_catch
    (json <- settle (request_json w) ;;
     match requestSchema (zod w) json with
     | failure issues =>
         let firstIssue := hd_error issues in
         return_ (NextResponse_json
                    (error_body (match firstIssue with
                                 | Some i => Zod.message i
                                 | None => js "Invalid request payload."
                                 end))
                    (Some 400%N))
     | success data =>
         src <-
           match mode data with
           | Mode.text =>
               let content := match content data with Some c => c | None => [] end in
               let sourceText := trim content in
               if Nat.ltb (JsString.length sourceText) 50 then
                 return_ (NextResponse_json
                            (error_body (js "Please provide at least 50 characters of text."))
                            (Some 400%N))
               else pure (Some sourceText, None)
           | Mode.url =>
               let url := url data in
               match url with
               | Some u =>
                   if falsy url then
                     return_ (NextResponse_json
                                (error_body (js "Missing URL for webpage mode."))
                                (Some 400%N))
                   else
                     sourceText <- call (call_extractFromUrl u) (extractFromUrl w u) ;;
                     pure (sourceText, Some u)
               | None =>
                   return_ (NextResponse_json
                              (error_body (js "Missing URL for webpage mode."))
                              (Some 400%N))
               end
           | Mode.video =>
               let videoUrl := videoUrl data in
               match videoUrl with
               | Some u =>
                   if falsy videoUrl then
                     return_ (NextResponse_json
                                (error_body (js "Missing video URL for YouTube mode."))
                                (Some 400%N))
                   else
                     sourceText <- call (call_extractFromYouTube u)
                                        (extractFromYouTube w u) ;;
                     pure (sourceText, Some u)
               | None =>
                   return_ (NextResponse_json
                              (error_body (js "Missing video URL for YouTube mode."))
                              (Some 400%N))
               end
           end ;;
         let '(sourceText, origin) := src in
         match sourceText with
         | Some text =>
             if falsy sourceText then
               return_ (NextResponse_json
                          (error_body (js "Unable to derive source material for the podcast."))
                          (Some 422%N))
             else
               openai <- call call_getOpenAIClient (getOpenAIClient w) ;;
               scriptPrompt <- settle (buildScriptPrompt w
                                         (mkPromptArgs text (mode data) origin)) ;;
               scriptResponse <- call (call_responses_create (scriptParams scriptPrompt))
                                      (responses_create openai (scriptParams scriptPrompt)) ;;
               let script := option_map trim (output_text scriptResponse) in
               match script with
               | Some s =>
                   if falsy script || Nat.eqb (JsString.length s) 0 then
                     return_ (NextResponse_json
                                (error_body (js "Failed to generate a script. Try again with different source material."))
                                (Some 502%N))
                   else
                     let params := mkSpeechParams (js "gpt-4o-mini-tts") (voice data) s in
                     speech <- call (call_audio_speech_create params)
                                    (audio_speech_create openai params) ;;
                     bytes <- call call_arrayBuffer (arrayBuffer speech) ;;
                     let audioBase64 := Base64.encode bytes in
                     return_ (NextResponse_json (success_body s audioBase64) None)
               | None =>
                   return_ (NextResponse_json
                              (error_body (js "Failed to generate a script. Try again with different source material."))
                              (Some 502%N))
               end
         | None =>
             return_ (NextResponse_json
                        (error_body (js "Unable to derive source material for the podcast."))
                        (Some 422%N))
         end
     end)
    (fun error =>
       log error ;;;
       let message := messageOf error in
       let status := statusOf message in
       return_ (NextResponse_json (error_body message) (Some status)))
    [].

(** The response of a run, when it has one. *)
Definition response (run : Completion Empty_set * list Event) : option Response :=
  match fst run with
  | returned r => Some r
  | _ => None
  end.

Definition trace (run : Completion Empty_set * list Event) : list Event := snd run.

(* ================================================================= *)
(** ** Concrete worlds, for evaluating the handler *)

Module Sample.

(** Stand-ins for zod's default messages and for the [URL] check. *)
Definition errorMap (c : Zod.IssueCode) : jsstring :=
  match c with
  | Zod.invalid_type _ Zod.t_undefined => js "Required"
  | Zod.invalid_type _ _ => js "Invalid input type"
  | Zod.invalid_enum_type _ Zod.t_undefined => js "Required"
  | Zod.invalid_enum_type _ _ => js "Invalid input type"
  | Zod.invalid_enum_value _ _ => js "Invalid enum value"
  | Zod.too_small _ => js "String is too short"
  | Zod.too_big _ => js "String is too long"
  | Zod.invalid_string_regex => js "Invalid"
  | Zod.invalid_string_url => js "Invalid url"
  end.

Definition isUrl (s : jsstring) : bool :=
  startsWith s (js "http://") || startsWith s (js "https://").

Definition lib : Zod.Library := Zod.mkLibrary errorMap isUrl.

Definition article : jsstring :=
  js "The quick brown fox jumps over the lazy dog, again and again, all day.".

Definition audio : list N := [73; 68; 51; 4; 0]%N.

Definition speech : SpeechResponse := mkSpeechResponse (resolved audio).

(** A client whose two capabilities answer. *)
Definition openai : OpenAI :=
  mkOpenAI
    (fun _ => resolved (mkScriptResponse (Some (js " Welcome to the show. "))))
    (fun _ => resolved speech).

(** A world in which every collaborator answers, around a payload. *)
Definition world (payload : json) : World :=
  mkWorld lib
    (resolved payload)
    (fun _ => resolved (Some article))
    (fun _ => resolved (Some article))
    (fun a => resolved (sourceSummary a))
    (resolved openai).

Definition field (k : string) (v : string) : jsstring * json :=
  (js k, JString (js v)).

(** Payloads. *)
Definition textRequest : json :=
  JObject [field "mode" "text"; (js "content", JString article)].

Definition shortText : json :=
  JObject [field "mode" "text"; field "content" "short"].

Definition paddedText : json :=
  JObject [field "mode" "text";
           field "content"
             "   short                                                   "].

Definition noContent : json := JObject [field "mode" "text"].

Definition urlRequest : json :=
  JObject [field "mode" "url"; field "url" "https://example.com/article"].

Definition videoRequest : json :=
  JObject [field "mode" "video";
           field "videoUrl" "https://youtube.com/watch?v=PRIVATE_ID"].

Definition urlMissing : json := JObject [field "mode" "url"].

Definition videoMissing : json := JObject [field "mode" "video"].

Definition badModeAndVoice : json :=
  JObject [field "mode" "audio"; field "voice" "!"].

Definition badVoice : json :=
  JObject [field "mode" "text"; field "voice" "!";
           (js "content", JString article)].

Definition upperVoice : json :=
  JObject [field "mode" "text"; field "voice" "ALLOY";
           (js "content", JString article)].

(** Failures. *)
Definition transcriptDisabled : Thrown :=
  ErrorInstance (js "Transcript is disabled on this video")
                (js "Error: Transcript is disabled on this video at extractFromYouTube").

Definition fetchFailed : Thrown :=
  ErrorInstance (js "Failed to fetch URL (status 404)")
                (js "Error: Failed to fetch URL (status 404) at extractFromUrl").

Definition missingKey : Thrown :=
  ErrorInstance (js "OPENAI_API_KEY is not set")
                (js "Error: OPENAI_API_KEY is not set at getOpenAIClient").

Definition rateLimited : Thrown :=
  ErrorInstance (js "429 Rate limit reached")
                (js "RateLimitError: 429 Rate limit reached at makeRequest").

Definition connectionError : Thrown :=
  ErrorInstance (js "Connection error.")
                (js "APIConnectionError: Connection error. at makeRequest").

(** Worlds that differ from [world] in one collaborator. *)
Definition withExtractors (payload : json)
           (fromUrl fromYouTube : Outcome (option jsstring)) : World :=
  mkWorld lib (resolved payload)
    (fun _ => fromUrl) (fun _ => fromYouTube)
    (fun a => resolved (sourceSummary a))
    (resolved openai).

Definition withClient (payload : json) (client : Outcome OpenAI) : World :=
  mkWorld lib (resolved payload)
    (fun _ => resolved (Some article))
    (fun _ => resolved (Some article))
    (fun a => resolved (sourceSummary a))
    client.

Definition silentModel : OpenAI :=
  mkOpenAI (fun _ => resolved (mkScriptResponse (Some (js "   "))))
           (fun _ => resolved speech).

Definition failingModel : OpenAI :=
  mkOpenAI (fun _ => rejected rateLimited) (fun _ => resolved speech).

Definition failingSpeech : OpenAI :=
  mkOpenAI
    (fun _ => resolved (mkScriptResponse (Some (js " Welcome to the show. "))))
    (fun _ => rejected connectionError).

(** Worlds for the paths of the handler. *)
Definition noCaptions : World :=
  withExtractors videoRequest (resolved (Some article))
                 (rejected transcriptDisabled).

Definition unreachablePage : World :=
  withExtractors urlRequest (rejected fetchFailed) (resolved (Some article)).

Definition emptyPage : World :=
  withExtractors urlRequest (resolved (Some [])) (resolved (Some article)).

Definition noCredentials : World := withClient textRequest (rejected missingKey).

Definition generationSilent : World := withClient textRequest (resolved silentModel).

Definition generationDown : World := withClient textRequest (resolved failingModel).

Definition synthesisDown : World := withClient textRequest (resolved failingSpeech).

(** The error of the platform's [fetch] when the host cannot be reached,
    thrown on through an extractor. *)
Definition hostUnreachable : Thrown :=
  ErrorInstance (js "fetch failed")
                (js "TypeError: fetch failed at node:internal/deps/undici/undici").

Definition networkDown : World :=
  withExtractors urlRequest (rejected hostUnreachable) (resolved (Some article)).

End Sample.

(* ================================================================= *)
(** ** Vocabulary of the properties *)

(** A key of the payload raises no issue against its schema. *)
Definition voiceOk (lib : Zod.Library) (fields : list (jsstring * json)) : Prop :=
  Zod.issues (voiceSchema lib [js "voice"] (get (js "voice") fields)) = [].

Definition contentOk (lib : Zod.Library) (fields : list (jsstring * json)) : Prop :=
  Zod.issues (contentSchema lib [js "content"] (get (js "content") fields)) = [].

Definition urlOk (lib : Zod.Library) (fields : list (jsstring * json)) : Prop :=
  Zod.issues (urlSchema lib [js "url"] (get (js "url") fields)) = [].

Definition videoUrlOk (lib : Zod.Library) (fields : list (jsstring * json)) : Prop :=
  Zod.issues (videoUrlSchema lib [js "videoUrl"] (get (js "videoUrl") fields)) = [].

(** The two response shapes of the interface: 200 with a script and its
    audio, or an error message under one of the four error statuses. *)
Definition wellFormed (r : Response) : Prop :=
  match body r with
  | success_body _ _ => status r = 200%N
  | error_body _ =>
      status r = 400%N \/ status r = 422%N \/ status r = 502%N \/ status r = 500%N
  end.

(** The faults the [catch] block tells apart, by what it looks for in the
    message. *)
Definition configurationFault (e : Thrown) : bool :=
  includes (messageOf e) (js "OPENAI_API_KEY").

Definition unreachableNetworkFault (e : Thrown) : bool :=
  includes (messageOf e) (js "Failed to fetch").

(** A voice value the schema lets through: a string of 2 to 32 ASCII
    letters (of either case) and hyphens. *)
Definition voiceAccepted (v : json) : bool :=
  match v with
  | JString s =>
      Nat.leb 2 (JsString.length s) && Nat.leb (JsString.length s) 32
      && forallb (fun c => asciiLetter c || N.eqb c 45) s
  | _ => false
  end.

(** The voice pattern in the words of the interface description,
    [^[a-z-]+$]: lower-case letters and hyphens only. *)
Definition lowercaseVoicePattern (s : jsstring) : bool :=
  truthy s && forallb (fun c => between 97 122 c || N.eqb c 45) s.

(** What an extractor call of the trace settled to. *)
Definition extraction (w : World) (ev : Event) : option (Outcome (option jsstring)) :=
  match ev with
  | call_extractFromUrl u => Some (extractFromUrl w u)
  | call_extractFromYouTube u => Some (extractFromYouTube w u)
  | _ => None
  end.

(** A generation call of the trace that resolved with no text, or with
    text that is empty once trimmed. *)
Definition emptyScript (openai : OpenAI) (ev : Event) : bool :=
  match ev with
  | call_responses_create p =>
      match responses_create openai p with
      | resolved r => falsy (option_map trim (output_text r))
      | rejected _ => false
      end
  | _ => false
  end.

(** The error a generation or synthesis call of the trace failed with:
    the generation request, the speech request, or the reading of the
    audio it resolved to. *)
Definition upstreamError (openai : OpenAI) (ev : Event) : option Thrown :=
  match ev with
  | call_responses_create p =>
      match responses_create openai p with
      | rejected e => Some e
      | resolved _ => None
      end
  | call_audio_speech_create p =>
      match audio_speech_create openai p with
      | rejected e => Some e
      | resolved speech =>
          match arrayBuffer speech with
          | rejected e => Some e
          | resolved _ => None
          end
      end
  | _ => None
  end.

(* ================================================================= *)
(** ** Vocabulary of the traces *)

(** A call to a collaborator, as opposed to the log line of the [catch]
    block. *)
Definition isCall (ev : Event) : bool :=
  match ev with
  | console_error _ => false
  | _ => true
  end.

(** The place of an event in the handler's text: extraction, client,
    generation, speech, audio, and last the log of the [catch] block. *)
Definition stage (ev : Event) : nat :=
  match ev with
  | call_extractFromUrl _ => 0
  | call_extractFromYouTube _ => 0
  | call_getOpenAIClient => 1
  | call_responses_create _ => 2
  | call_audio_speech_create _ => 3
  | call_arrayBuffer => 4
  | console_error _ => 5
  end.

(** The same world around another request body. *)
Definition withBody (w : World) (payload : Outcome json) : World :=
  mkWorld (zod w) payload (extractFromUrl w) (extractFromYouTube w)
          (buildScriptPrompt w) (getOpenAIClient w).

(** The keys of the schema's shape. *)
Definition shapeKeys : list jsstring :=
  [js "mode"; js "voice"; js "content"; js "url"; js "videoUrl"].

(** The origin the handler attaches to the source text: none for pasted
    text, the url or the video url otherwise. *)
Definition originOf (data : GenerationRequest) : option jsstring :=
  match mode data with
  | Mode.text => None
  | Mode.url => url data
  | Mode.video => videoUrl data
  end.

(* ================================================================= *)
(** ** The page: [src/app/page.tsx] *)

Module Page.

Record VoiceOption := mkVoice {
  id : jsstring;
  label : jsstring
}.

Definition voices : list VoiceOption :=
  [mkVoice (js "alloy") (js "Alloy - Warm Narrator");
   mkVoice (js "verse") (js "Verse - Conversational");
   mkVoice (js "luna") (js "Luna - Friendly Host")].

(** The state hooks of [HomePage]; [result] holds whatever JSON the
    response body parsed to. *)
Record State := mkState {
  mode : Mode.t;
  textInput : jsstring;
  urlInput : jsstring;
  videoInput : jsstring;
  voice : jsstring;
  loading : bool;
  error : option jsstring;
  result : option json
}.

(** The initial values given to [useState]. *)
Definition initial : State :=
  mkState Mode.text [] [] []
          (match voices with v :: _ => id v | [] => js "alloy" end)
          false None None.

Definition setLoading (b : bool) (st : State) : State :=
  mkState (mode st) (textInput st) (urlInput st) (videoInput st) (voice st)
          b (error st) (result st).

Definition setError (e : option jsstring) (st : State) : State :=
  mkState (mode st) (textInput st) (urlInput st) (videoInput st) (voice st)
          (loading st) e (result st).

Definition setResult (r : option json) (st : State) : State :=
  mkState (mode st) (textInput st) (urlInput st) (videoInput st) (voice st)
          (loading st) (error st) r.

(** [hasContent]: the input of the active tab is not blank. *)
Definition hasContent (st : State) : bool :=
  match mode st with
  | Mode.text => Nat.ltb 0 (JsString.length (trim (textInput st)))
  | Mode.url => Nat.ltb 0 (JsString.length (trim (urlInput st)))
  | Mode.video => Nat.ltb 0 (JsString.length (trim (videoInput st)))
  end.

(** The string of a [GenerationMode]. *)
Definition modeName (m : Mode.t) : jsstring :=
  match m with
  | Mode.text => js "text"
  | Mode.url => js "url"
  | Mode.video => js "video"
  end.

(** The [payload] object [handleSubmit] builds: [mode] and [voice], then
    the one key of the mode with the input as typed. *)
Definition payloadOf (st : State) : json :=
  JObject
    ([(js "mode", JString (modeName (mode st)));
      (js "voice", JString (voice st))]
     ++ match mode st with
        | Mode.text => [(js "content", JString (textInput st))]
        | Mode.url => [(js "url", JString (urlInput st))]
        | Mode.video => [(js "videoUrl", JString (videoInput st))]
        end).

(** What [fetch] resolves to, as far as the page reads it. *)
Record FetchResponse := mkFetchResponse {
  ok : bool;
  res_json : Outcome json
}.

(** The platform under the page: [fetch] on [/api/generate] with a body,
    and the string conversion [new Error(value)] applies to a value that
    is not a string. *)
Record Browser := mkBrowser {
  fetch : json -> Outcome FetchResponse;
  toStringOf : json -> jsstring
}.

(** [data?.error ?? fallback]: the [error] property of an object unless
    it is absent or null; a primitive or an array has none. *)
Definition errorOf (b : Browser) (data : json) (fallback : jsstring) : jsstring :=
  match data with
  | JObject fields =>
      match get (js "error") fields with
      | None | Some JNull => fallback
      | Some (JString s) => s
      | Some v => toStringOf b v
      end
  | _ => fallback
  end.

(** [err instanceof Error ? err.message : "Something went wrong ..."] *)
Definition messageOf (err : Thrown) : jsstring :=
  match err with
  | ErrorInstance m _ => m
  | OtherValue _ => js "Something went wrong while generating the podcast."
  end.

(** The [try] block of [handleSubmit]: the message of what it throws, or
    the data it passes to [setResult]. *)
Definition request (b : Browser) (payload : json) : jsstring + json :=
  match fetch b payload with
  | rejected err => inl (messageOf err)
  | resolved res =>
      if negb (ok res) then
        let data := match res_json res with
                    | resolved d => d
                    | rejected _ => JObject []
                    end in
        inl (errorOf b data
               (js "We could not produce the podcast. Try again with different content."))
      else
        match res_json res with
        | resolved data => inr data
        | rejected err => inl (messageOf err)
        end
  end.

(** A parsed body as the value of the [result] state: a JSON [null] is
    the [null] the state starts from, that is no result. *)
Definition stored (data : json) : option json :=
  match data with
  | JNull => None
  | _ => Some data
  end.

(** [handleSubmit]: the state it leaves and the request bodies it sent. *)
Definition handleSubmit (b : Browser) (st : State) : State * list json :=
  if negb (hasContent st) || loading st then (st, [])
  else
    let st1 := setResult None (setError None (setLoading true st)) in
    let payload := payloadOf st in
    let st2 := match request b payload with
               | inr data => setResult (stored data) st1
               | inl message => setError (Some message) st1
               end in
    (setLoading false st2, [payload]).

(** [atob], the forgiving base64 decoding of the platform: ASCII
    whitespace is dropped, up to two trailing [=] are dropped from a
    length that is a multiple of four, and what is left must be base64
    digits, not one more than a multiple of four. *)
Definition isAsciiWhitespace (c : N) : bool :=
  N.eqb c 9 || N.eqb c 10 || N.eqb c 12 || N.eqb c 13 || N.eqb c 32.

Definition sextet (c : N) : option N :=
  if between 65 90 c then Some (c - 65)%N
  else if between 97 122 c then Some (c - 71)%N
  else if between 48 57 c then Some (c + 4)%N
  else if N.eqb c 43 then Some 62%N
  else if N.eqb c 47 then Some 63%N
  else None.

Fixpoint sextets (s : jsstring) : option (list N) :=
  match s with
  | [] => Some []
  | c :: s' =>
      match sextet c, sextets s' with
      | Some n, Some ns => Some (n :: ns)
      | _, _ => None
      end
  end.

Fixpoint octets (ns : list N) : list N :=
  match ns with
  | a :: b :: c :: d :: rest =>
      [a * 4 + b / 16; (b mod 16) * 16 + c / 4; (c mod 4) * 64 + d] ++ octets rest
  | [a; b; c] => [a * 4 + b / 16; (b mod 16) * 16 + c / 4]
  | [a; b] => [a * 4 + b / 16]
  | _ => []
  end%N.

(** Drops one [=] from the end, if there is one. *)
Definition dropPad (s : jsstring) : jsstring :=
  match rev s with
  | c :: r => if N.eqb c 61 then rev r else s
  | [] => s
  end.

Definition atob (data : jsstring) : option jsstring :=
  let s := filter (fun c => negb (isAsciiWhitespace c)) data in
  let s := if Nat.eqb (JsString.length s mod 4) 0 then dropPad (dropPad s) else s in
  if Nat.eqb (JsString.length s mod 4) 1 then None
  else option_map octets (sextets s).

(** The bytes [useAudioUrl] hands to the [Blob]: each code unit of
    [atob(base64)] stored in a [Uint8Array]. *)
Definition audioBytes (base64 : jsstring) : option (list N) :=
  option_map (List.map (fun c => (c mod 256)%N)) (atob base64).

End Page.

(** The body [NextResponse.json] serialises, as the page parses it back. *)
Definition bodyJson (b : Body) : json :=
  match b with
  | error_body m => JObject [(js "error", JString m)]
  | success_body s a =>
      JObject [(js "script", JString s); (js "audioBase64", JString a)]
  end.

(** The page's [fetch] when it reaches this handler over a working
    connection: the body the page stringified is the body the handler
    parses, and the response is the handler's. *)
Definition serverFetch (w : World) (payload : json) : Outcome Page.FetchResponse :=
  match response (POST (withBody w (resolved payload))) with
  | Some r =>
      resolved (Page.mkFetchResponse (between 200 299 (status r))
                                     (resolved (bodyJson (body r))))
  | None => rejected (OtherValue JNull)
  end.

Definition browserOf (w : World) (toStringOf : json -> jsstring) : Page.Browser :=
  Page.mkBrowser (serverFetch w) toStringOf.

(** The six-bit groups of a byte sequence, three bytes to four groups. *)
Fixpoint sextetsOf (bytes : list N) : list N :=
  match bytes with
  | [] => []
  | [a] => [a / 4; (a mod 4) * 16]
  | [a; b] => [a / 4; (a mod 4) * 16 + b / 16; (b mod 16) * 4]
  | a :: b :: c :: rest =>
      [a / 4; (a mod 4) * 16 + b / 16; (b mod 16) * 4 + c / 64; c mod 64]
      ++ sextetsOf rest
  end%N.

(** The number of [=] that end the encoding of a byte sequence. *)
Fixpoint padding (bytes : list N) : nat :=
  match bytes with
  | [] => 0
  | [_] => 2
  | [_; _] => 1
  | _ :: _ :: _ :: rest => padding rest
  end.

(** States of the page, for evaluating a submission. *)
Module SamplePage.

Definition typed (m : Mode.t) (text link video : string) : Page.State :=
  Page.mkState m (js text) (js link) (js video) (js "alloy") false None None.

Definition shortNote : Page.State := typed Mode.text "  short note " "" "".

Definition articleLink : Page.State :=
  typed Mode.url "" "https://example.com/article" "".

Definition notALink : Page.State := typed Mode.url "" "see my blog" "".

Definition videoLink : Page.State :=
  typed Mode.video "" "" "https://youtube.com/watch?v=PRIVATE_ID".

End SamplePage.

(* ================================================================= *)
(** ** Proofs *)

Lemma statusOf_cases (m : jsstring) : statusOf m = 500%N \/ statusOf m = 400%N.
Proof. unfold statusOf. destruct (_ || _); auto. Qed.

(** Unfolds the handler down to the outcome of its calls. *)
Ltac unfold_handler :=
  unfold POST, response, trace, try_catch,
    bind, settle, call, return_, pure, log, NextResponse_json in *.

(** Splits on the next thing the handler branches on. *)
Ltac branch :=
  match goal with
  | |- context [match ?x with _ => _ end] =>
      lazymatch x with
      | context [match _ with _ => _ end] => fail
      | _ => destruct x eqn:?
      end
  | H : context [match ?x with _ => _ end] |- _ =>
      lazymatch x with
      | context [match _ with _ => _ end] => fail
      | _ => destruct x eqn:?
      end
  end.

(** *** The schema *)

Section SchemaFacts.
Variable lib : Zod.Library.

Lemma string_no_issue cs p v :
  Zod.issues (Zod.string_ lib cs p v) = [] ->
  exists s, v = Some (JString s)
            /\ Zod.value (Zod.string_ lib cs p v) = Some s
            /\ Zod.runChecks lib cs p s = [].
Proof.
  unfold Zod.string_.
  destruct v as [[| | | s | |]|]; cbn; try discriminate.
  intros H. exists s. auto.
Qed.

Lemma optional_no_issue cs p v :
  Zod.issues (Zod.optional (Zod.string_ lib cs) p v) = [] ->
  (v = None /\ Zod.value (Zod.optional (Zod.string_ lib cs) p v) = Some None)
  \/ exists s, v = Some (JString s)
               /\ Zod.value (Zod.optional (Zod.string_ lib cs) p v) = Some (Some s)
               /\ Zod.runChecks lib cs p s = [].
Proof.
  unfold Zod.optional, Zod.string_.
  destruct v as [[| | | s | |]|]; cbn; try discriminate; [|auto].
  intros H. right. exists s. auto.
Qed.

Lemma mode_no_issue p v :
  Zod.issues (modeSchema lib p v) = [] ->
  exists s m, v = Some (JString s) /\ Mode.decode s = Some m
              /\ Zod.value (modeSchema lib p v) = Some m.
Proof.
  unfold modeSchema, Zod.enum.
  destruct v as [[| | | s | |]|]; cbn; try discriminate.
  destruct (Mode.decode s) as [m|] eqn:E; cbn; try discriminate.
  intros _. exists s, m. auto.
Qed.

Lemma voice_no_issue p v :
  Zod.issues (voiceSchema lib p v) = [] ->
  exists s, Zod.value (voiceSchema lib p v) = Some s
            /\ (v = None /\ s = js "alloy" \/ v = Some (JString s)).
Proof.
  unfold voiceSchema, Zod.default. destruct v as [j|].
  - intros H. apply string_no_issue in H. destruct H as (s & -> & Hv & _).
    exists s. auto.
  - intros _. exists (js "alloy"). split; [reflexivity | auto].
Qed.

(** A payload object with no issue parses, and the parsed data are the
    values of its keys. *)
Lemma requestSchema_success fields :
  shapeIssues lib fields = [] ->
  exists m v c u w,
    requestSchema lib (JObject fields) = success (mkRequest m v c u w)
    /\ Zod.value (modeSchema lib [js "mode"] (get (js "mode") fields)) = Some m
    /\ Zod.value (voiceSchema lib [js "voice"] (get (js "voice") fields)) = Some v
    /\ Zod.value (contentSchema lib [js "content"] (get (js "content") fields)) = Some c
    /\ Zod.value (urlSchema lib [js "url"] (get (js "url") fields)) = Some u
    /\ Zod.value (videoUrlSchema lib [js "videoUrl"] (get (js "videoUrl") fields)) = Some w.
Proof.
  intros H. unfold requestSchema. rewrite H. unfold shapeIssues in H.
  apply app_eq_nil in H. destruct H as [Hm H].
  apply app_eq_nil in H. destruct H as [Hv H].
  apply app_eq_nil in H. destruct H as [Hc H].
  apply app_eq_nil in H. destruct H as [Hu Hw].
  destruct (mode_no_issue _ _ Hm) as (ms & m & _ & _ & ->).
  destruct (voice_no_issue _ _ Hv) as (v & -> & _).
  destruct (optional_no_issue _ _ _ Hc) as [[_ Ec] | (c & _ & Ec & _)];
    unfold contentSchema; rewrite Ec;
    destruct (optional_no_issue _ _ _ Hu) as [[_ Eu] | (u & _ & Eu & _)];
    unfold urlSchema; rewrite Eu;
    destruct (optional_no_issue _ _ _ Hw) as [[_ Ew] | (vu & _ & Ew & _)];
    unfold videoUrlSchema; rewrite Ew;
    do 5 eexists; repeat split; reflexivity.
Qed.

(** A payload object with an issue fails with its issues, in order. *)
Lemma requestSchema_failure fields :
  shapeIssues lib fields <> [] ->
  requestSchema lib (JObject fields) = failure (shapeIssues lib fields).
Proof.
  intros H. unfold requestSchema.
  destruct (shapeIssues lib fields) eqn:E; [congruence|]. reflexivity.
Qed.

(** A failed parse always carries an issue. *)
Lemma failure_has_issue payload errs :
  requestSchema lib payload = failure errs -> errs <> [].
Proof.
  destruct payload; try (cbn; intros [= <-]; discriminate).
  intros H. destruct (shapeIssues lib fields) eqn:E.
  - destruct (requestSchema_success fields E) as (m & v & c & u & w & R & _).
    congruence.
  - rewrite requestSchema_failure in H by congruence.
    injection H as <-. congruence.
Qed.

(** What a successful parse says about the payload. *)
Lemma success_inv fields data :
  requestSchema lib (JObject fields) = success data ->
  shapeIssues lib fields = []
  /\ Zod.value (modeSchema lib [js "mode"] (get (js "mode") fields)) = Some (mode data)
  /\ Zod.value (voiceSchema lib [js "voice"] (get (js "voice") fields)) = Some (voice data)
  /\ Zod.value (contentSchema lib [js "content"] (get (js "content") fields))
     = Some (content data)
  /\ Zod.value (urlSchema lib [js "url"] (get (js "url") fields)) = Some (url data)
  /\ Zod.value (videoUrlSchema lib [js "videoUrl"] (get (js "videoUrl") fields))
     = Some (videoUrl data).
Proof.
  intros H. destruct (shapeIssues lib fields) eqn:E.
  - destruct (requestSchema_success fields E) as (m & v & c & u & w & R & ?).
    rewrite R in H. injection H as <-. cbn. auto.
  - rewrite requestSchema_failure in H by congruence. discriminate.
Qed.

End SchemaFacts.

(** *** Runs of the handler *)

(** A payload the schema rejects is answered from the first issue, and
    nothing is called. *)
Lemma POST_invalid w payload first rest :
  request_json w = resolved payload ->
  requestSchema (zod w) payload = failure (first :: rest) ->
  POST w = (returned (mkResponse (error_body (Zod.message first)) 400%N), []).
Proof.
  intros Hj Hp. unfold_handler. rewrite Hj, Hp. reflexivity.
Qed.

(** A parsed text request whose trimmed content is short. *)
Lemma POST_text_short w payload data :
  request_json w = resolved payload ->
  requestSchema (zod w) payload = success data ->
  mode data = Mode.text ->
  JsString.length (trim (match content data with Some c => c | None => [] end)) < 50 ->
  POST w = (returned (mkResponse
                        (error_body (js "Please provide at least 50 characters of text."))
                        400%N), []).
Proof.
  intros Hj Hp Hm Hlen. apply Nat.ltb_lt in Hlen.
  unfold_handler. rewrite Hj, Hp, Hm, Hlen. reflexivity.
Qed.

(** A parsed url or video request whose own field is absent. *)
Lemma POST_url_missing w payload data :
  request_json w = resolved payload ->
  requestSchema (zod w) payload = success data ->
  mode data = Mode.url ->
  url data = None ->
  POST w = (returned (mkResponse (error_body (js "Missing URL for webpage mode."))
                                 400%N), []).
Proof.
  intros Hj Hp Hm Hu. unfold_handler. rewrite Hj, Hp, Hm, Hu. reflexivity.
Qed.

Lemma POST_video_missing w payload data :
  request_json w = resolved payload ->
  requestSchema (zod w) payload = success data ->
  mode data = Mode.video ->
  videoUrl data = None ->
  POST w = (returned (mkResponse (error_body (js "Missing video URL for YouTube mode."))
                                 400%N), []).
Proof.
  intros Hj Hp Hm Hu. unfold_handler. rewrite Hj, Hp, Hm, Hu. reflexivity.
Qed.

(** The mode key of a payload, once it holds one of the three literals. *)
Lemma mode_parsed lib fields s m :
  get (js "mode") fields = Some (JString s) ->
  Mode.decode s = Some m ->
  modeSchema lib [js "mode"] (get (js "mode") fields) = Zod.mkParsed [] (Some m).
Proof.
  intros -> E. unfold modeSchema, Zod.enum. rewrite E. reflexivity.
Qed.

(** *** The claims *)

(** C1. Whatever the payload and however the collaborators settle, the
    handler completes by returning one response, and that response is
    either a 200 carrying [script] and [audioBase64] or an [error] message
    under status 400, 422, 502 or 500; it never completes by throwing. *)
Theorem POST_always_responds (w : World) :
  exists r, fst (POST w) = returned r /\ wellFormed r.
Proof.
  unfold_handler.
  repeat (branch; cbn [fst snd body status wellFormed] in * ).
  all: try (eexists; split; [reflexivity|]; unfold wellFormed; cbn; auto).
  all: try match goal with a : Empty_set |- _ => destruct a end.
  all: unfold wellFormed; cbn;
    match goal with
    | |- context [statusOf ?m] => destruct (statusOf_cases m) as [-> | ->]; auto
    end.
Qed.

(** C5. A payload that fails schema validation is answered with status
    400 and the message of the first issue of the parse, alone; the issues
    of an object payload are those of its keys in the order of the schema,
    each key's checks in the order they are chained. *)
Theorem invalid_payload_first_issue w payload errs :
  request_json w = resolved payload ->
  requestSchema (zod w) payload = failure errs ->
  exists first rest,
    errs = first :: rest
    /\ (forall fields, payload = JObject fields -> errs = shapeIssues (zod w) fields)
    /\ POST w = (returned (mkResponse (error_body (Zod.message first)) 400%N), []).
Proof.
  intros Hj Hp.
  pose proof (failure_has_issue _ _ Hp) as Hne.
  destruct errs as [|first rest]; [congruence|].
  exists first, rest. split; [reflexivity|]. split.
  - intros fields ->. destruct (shapeIssues (zod w) fields) eqn:E.
    + destruct (requestSchema_success (zod w) fields E) as (? & ? & ? & ? & ? & R & _).
      congruence.
    + rewrite requestSchema_failure in Hp by congruence. congruence.
  - apply POST_invalid with (payload := payload) (rest := rest); assumption.
Qed.

(** A payload object whose keys raise an issue is answered 400 from the
    first of them; one whose keys raise none is parsed. *)
Lemma object_payload_cases w fields :
  request_json w = resolved (JObject fields) ->
  (exists first rest,
      shapeIssues (zod w) fields = first :: rest
      /\ POST w = (returned (mkResponse (error_body (Zod.message first)) 400%N), []))
  \/
  (shapeIssues (zod w) fields = []
   /\ exists data, requestSchema (zod w) (JObject fields) = success data).
Proof.
  intros Hj. destruct (shapeIssues (zod w) fields) as [|first rest] eqn:E.
  - right. split; [reflexivity|].
    destruct (requestSchema_success (zod w) fields E) as (m & v & c & u & x & R & _).
    eauto.
  - left. exists first, rest. split; [reflexivity|].
    apply POST_invalid with (payload := JObject fields) (rest := rest); [exact Hj|].
    rewrite requestSchema_failure by congruence. rewrite E. reflexivity.
Qed.

(** The issues of a payload whose mode is a literal and whose voice, url
    and videoUrl raise none are those of its content. *)
Lemma issues_of_content lib fields s m :
  get (js "mode") fields = Some (JString s) ->
  Mode.decode s = Some m ->
  voiceOk lib fields -> urlOk lib fields -> videoUrlOk lib fields ->
  shapeIssues lib fields
  = Zod.issues (contentSchema lib [js "content"] (get (js "content") fields)).
Proof.
  intros Hm Hd Hv Hu Hw. unfold shapeIssues.
  rewrite (mode_parsed lib fields Hm Hd). cbn [Zod.issues].
  unfold voiceOk, urlOk, videoUrlOk in *. rewrite Hv, Hu, Hw.
  cbn [app]. apply app_nil_r.
Qed.

(** C3. A text request whose content, once trimmed, is shorter than 50
    code units is answered with status 400 and no collaborator is called;
    when its other keys satisfy the schema, the message names the
    50-character minimum (the schema's message when the content is
    already short untrimmed, the handler's otherwise). *)
Theorem short_text_rejected w fields c :
  request_json w = resolved (JObject fields) ->
  get (js "mode") fields = Some (JString (js "text")) ->
  get (js "content") fields = Some (JString c) ->
  JsString.length (trim c) < 50 ->
  exists m,
    response (POST w) = Some (mkResponse (error_body m) 400%N)
    /\ trace (POST w) = []
    /\ (voiceOk (zod w) fields -> urlOk (zod w) fields -> videoUrlOk (zod w) fields ->
        includes m (js "at least 50 characters") = true).
Proof.
  intros Hj Hmode Hc Hlen.
  assert (Econtent :
            Zod.issues (contentSchema (zod w) [js "content"] (get (js "content") fields))
            = if Nat.ltb (JsString.length c) 50
              then [Zod.issue (zod w) (Zod.too_small 50) [js "content"]
                      (Some (js "Provide at least 50 characters of text."))]
              else []).
  { unfold contentSchema, Zod.optional, Zod.string_. rewrite Hc.
    cbn [Zod.issues Zod.runChecks Zod.violates Zod.checkIssue].
    destruct (Nat.ltb (JsString.length c) 50); reflexivity. }
  destruct (@object_payload_cases w fields Hj)
    as [(first & rest & E & R) | (E & data & R)].
  - (* some key raises an issue *)
    exists (Zod.message first). rewrite R.
    split; [reflexivity|]. split; [reflexivity|].
    intros Hv Hu Hw.
    rewrite (@issues_of_content (zod w) fields _ _ Hmode eq_refl Hv Hu Hw), Econtent in E.
    destruct (Nat.ltb (JsString.length c) 50); [|discriminate].
    injection E as <- _. vm_compute. reflexivity.
  - (* the content passes the schema and is trimmed by the handler *)
    exists (js "Please provide at least 50 characters of text.").
    destruct (@success_inv (zod w) fields data R) as (_ & Vm & _ & Vc & _).
    rewrite (mode_parsed (zod w) fields Hmode eq_refl) in Vm.
    cbn in Vm. injection Vm as Vm.
    unfold contentSchema, Zod.optional, Zod.string_ in Vc. rewrite Hc in Vc.
    cbn in Vc. injection Vc as Vc.
    rewrite (POST_text_short w Hj R (eq_sym Vm)) by (rewrite <- Vc; exact Hlen).
    split; [reflexivity|]. split; [reflexivity|].
    intros _ _ _. vm_compute. reflexivity.
Qed.

(** C10. A text request with no [content] key is answered with status
    400 and no collaborator is called; when its other keys satisfy the
    schema it passes validation, the handler takes its content to be the
    empty string and the message is the handler's 50-character message,
    not a missing-field message. *)
Theorem absent_content_is_empty_text w fields :
  request_json w = resolved (JObject fields) ->
  get (js "mode") fields = Some (JString (js "text")) ->
  get (js "content") fields = None ->
  (exists m, response (POST w) = Some (mkResponse (error_body m) 400%N))
  /\ trace (POST w) = []
  /\ (voiceOk (zod w) fields -> urlOk (zod w) fields -> videoUrlOk (zod w) fields ->
      (exists data,
          requestSchema (zod w) (JObject fields) = success data
          /\ mode data = Mode.text /\ content data = None)
      /\ response (POST w)
         = Some (mkResponse
                   (error_body (js "Please provide at least 50 characters of text."))
                   400%N)).
Proof.
  intros Hj Hmode Hc.
  assert (Hcontent : contentOk (zod w) fields)
    by (unfold contentOk; rewrite Hc; reflexivity).
  destruct (@object_payload_cases w fields Hj)
    as [(first & rest & E & R) | (E & data & R)].
  - rewrite R. split; [eexists; reflexivity|]. split; [reflexivity|].
    intros Hv Hu Hw.
    rewrite (@issues_of_content (zod w) fields _ _ Hmode eq_refl Hv Hu Hw) in E.
    rewrite Hcontent in E. discriminate.
  - destruct (@success_inv (zod w) fields data R) as (_ & Vm & _ & Vc & _).
    rewrite (mode_parsed (zod w) fields Hmode eq_refl) in Vm.
    cbn in Vm. injection Vm as Vm.
    rewrite Hc in Vc. cbn in Vc. injection Vc as Vc.
    rewrite (POST_text_short w Hj R (eq_sym Vm)) by (rewrite <- Vc; cbn; lia).
    split; [eexists; reflexivity|]. split; [reflexivity|].
    intros _ _ _. split; [|reflexivity]. exists data. auto.
Qed.

(** C4. A url request with no [url] key, and a video request with no
    [videoUrl] key, is answered with status 400 and no collaborator (so
    no extractor) is called; when its other keys satisfy the schema, the
    message is the one that names the missing field. *)
Theorem missing_field_rejected w fields :
  request_json w = resolved (JObject fields) ->
  (get (js "mode") fields = Some (JString (js "url")) ->
   get (js "url") fields = None ->
   exists m,
     response (POST w) = Some (mkResponse (error_body m) 400%N)
     /\ trace (POST w) = []
     /\ (voiceOk (zod w) fields -> contentOk (zod w) fields ->
         videoUrlOk (zod w) fields ->
         m = js "Missing URL for webpage mode."))
  /\
  (get (js "mode") fields = Some (JString (js "video")) ->
   get (js "videoUrl") fields = None ->
   exists m,
     response (POST w) = Some (mkResponse (error_body m) 400%N)
     /\ trace (POST w) = []
     /\ (voiceOk (zod w) fields -> contentOk (zod w) fields ->
         urlOk (zod w) fields ->
         m = js "Missing video URL for YouTube mode.")).
Proof.
  intros Hj. split; intros Hmode Habsent.
  - destruct (@object_payload_cases w fields Hj)
      as [(first & rest & E & R) | (E & data & R)].
    + exists (Zod.message first). rewrite R.
      split; [reflexivity|]. split; [reflexivity|].
      intros Hv Hc Hw.
      assert (Hu : urlOk (zod w) fields)
        by (unfold urlOk; rewrite Habsent; reflexivity).
      rewrite (@issues_of_content (zod w) fields _ _ Hmode eq_refl Hv Hu Hw) in E.
      rewrite Hc in E. discriminate.
    + destruct (@success_inv (zod w) fields data R) as (_ & Vm & _ & _ & Vu & _).
      rewrite (mode_parsed (zod w) fields Hmode eq_refl) in Vm.
      cbn in Vm. injection Vm as Vm.
      rewrite Habsent in Vu. cbn in Vu. injection Vu as Vu.
      rewrite (POST_url_missing w Hj R (eq_sym Vm) (eq_sym Vu)).
      eexists. split; [reflexivity|]. split; [reflexivity|]. reflexivity.
  - destruct (@object_payload_cases w fields Hj)
      as [(first & rest & E & R) | (E & data & R)].
    + exists (Zod.message first). rewrite R.
      split; [reflexivity|]. split; [reflexivity|].
      intros Hv Hc Hu.
      assert (Hw : videoUrlOk (zod w) fields)
        by (unfold videoUrlOk; rewrite Habsent; reflexivity).
      rewrite (@issues_of_content (zod w) fields _ _ Hmode eq_refl Hv Hu Hw) in E.
      rewrite Hc in E. discriminate.
    + destruct (@success_inv (zod w) fields data R) as (_ & Vm & _ & _ & _ & Vw).
      rewrite (mode_parsed (zod w) fields Hmode eq_refl) in Vm.
      cbn in Vm. injection Vm as Vm.
      rewrite Habsent in Vw. cbn in Vw. injection Vw as Vw.
      rewrite (POST_video_missing w Hj R (eq_sym Vm) (eq_sym Vw)).
      eexists. split; [reflexivity|]. split; [reflexivity|]. reflexivity.
Qed.

(** What the [catch] block answers for the failure it logged. *)
Lemma POST_caught w e :
  In (console_error e) (trace (POST w)) ->
  response (POST w)
  = Some (mkResponse (error_body (messageOf e)) (statusOf (messageOf e))).
Proof.
  unfold_handler.
  repeat (branch; cbn [fst snd app In] in * ).
  all: try tauto.
  all: try match goal with a : Empty_set |- _ => destruct a end.
  all: intuition (try discriminate).
  all: try match goal with
           | H : console_error _ = console_error _ |- _ => injection H as <-
           end.
  all: reflexivity.
Qed.

(** C7, as the handler has it. A failure caught by the [catch] block is
    answered with its message, and the status is read off that message
    alone: 500 exactly when the message contains [OPENAI_API_KEY] or
    [Failed to fetch], 400 exactly when it contains neither.  What kind of
    fault it was plays no part: a missing credential is a 500 because its
    message names the key, and a network fault whose message is worded
    otherwise is a 400. *)
Theorem caught_failure_status_by_message w e :
  In (console_error e) (trace (POST w)) ->
  exists r,
    response (POST w) = Some r
    /\ body r = error_body (messageOf e)
    /\ (status r = 500%N
        <-> includes (messageOf e) (js "OPENAI_API_KEY") = true
            \/ includes (messageOf e) (js "Failed to fetch") = true)
    /\ (status r = 400%N
        <-> includes (messageOf e) (js "OPENAI_API_KEY") = false
            /\ includes (messageOf e) (js "Failed to fetch") = false).
Proof.
  intros H. rewrite (POST_caught w e H). eexists. split; [reflexivity|].
  split; [reflexivity|]. cbn [status]. unfold statusOf.
  destruct (includes (messageOf e) (js "OPENAI_API_KEY"));
    destruct (includes (messageOf e) (js "Failed to fetch")); cbn [orb];
    repeat split; intros; auto; try discriminate;
    repeat match goal with
      | H : _ \/ _ |- _ => destruct H
      | H : _ /\ _ |- _ => destruct H
      end; discriminate.
Qed.

(** C9, as the handler has it. A fault caught by the [catch] block is
    logged and answered with the message of the thrown [Error] itself; the
    generic message is used only for a thrown value that is not an [Error],
    and the stack is in no case part of the response. *)
Theorem caught_failure_message w e :
  In (console_error e) (trace (POST w)) ->
  exists r,
    response (POST w) = Some r
    /\ match e with
       | ErrorInstance m _ => body r = error_body m
       | OtherValue _ => body r = error_body (js "Unexpected server error.")
       end.
Proof.
  intros H. rewrite (POST_caught w e H). eexists. split; [reflexivity|].
  destruct e; reflexivity.
Qed.

(** Splits a run of the handler into its paths. *)
Ltac run_cases :=
  unfold_handler;
  repeat (branch; cbn [fst snd app In] in * );
  try tauto;
  try match goal with a : Empty_set |- _ => destruct a end.

(** Picks the event of the trace a hypothesis speaks about. *)
Ltac pick_event Hin :=
  repeat match type of Hin with _ \/ _ => destruct Hin as [Hin | Hin] end;
  try contradiction.

Lemma extraction_rejected w ev e :
  In ev (trace (POST w)) ->
  extraction w ev = Some (rejected e) ->
  response (POST w)
  = Some (mkResponse (error_body (messageOf e)) (statusOf (messageOf e))).
Proof.
  intros Hin Hex. revert Hin. run_cases.
  all: intros Hin; pick_event Hin.
  all: subst ev; cbn [extraction] in Hex; try discriminate.
  all: congruence.
Qed.

Lemma extraction_empty w ev text :
  In ev (trace (POST w)) ->
  extraction w ev = Some (resolved text) ->
  falsy text = true ->
  response (POST w)
  = Some (mkResponse
            (error_body (js "Unable to derive source material for the podcast."))
            422%N).
Proof.
  intros Hin Hex Hf. revert Hin. run_cases.
  all: intros Hin; pick_event Hin.
  all: subst ev; cbn [extraction] in Hex; try discriminate.
  all: try congruence.
Qed.

(** C2, as the handler has it. When an extractor call resolves with no
    text (null or the empty string) the answer is 422 with the message
    that no source material could be derived; when it fails with a thrown
    error the [catch] block answers with that error's message, under
    status 500 or 400. *)
Theorem extraction_outcome w ev o :
  In ev (trace (POST w)) ->
  extraction w ev = Some o ->
  match o with
  | resolved text =>
      falsy text = true ->
      response (POST w)
      = Some (mkResponse
                (error_body (js "Unable to derive source material for the podcast."))
                422%N)
  | rejected e =>
      response (POST w)
      = Some (mkResponse (error_body (messageOf e)) (statusOf (messageOf e)))
  end.
Proof.
  intros Hin Hex. destruct o as [text | e].
  - intros Hf. exact (extraction_empty w ev Hin Hex Hf).
  - exact (extraction_rejected w ev Hin Hex).
Qed.

Lemma generation_empty w openai ev :
  getOpenAIClient w = resolved openai ->
  In ev (trace (POST w)) ->
  emptyScript openai ev = true ->
  response (POST w)
  = Some (mkResponse
            (error_body (js "Failed to generate a script. Try again with different source material."))
            502%N).
Proof.
  intros Hc Hin He. revert Hin. run_cases.
  all: intros Hin; pick_event Hin.
  all: subst ev; cbn [emptyScript] in He; try discriminate.
  all: try congruence.
  all: injection Hc as <-.
  all: match goal with
       | H : responses_create _ _ = _ |- _ => rewrite H in He
       end; try discriminate.
  all: match goal with H : option_map _ _ = _ |- _ => rewrite H in He end.
  all: rewrite He in *; discriminate.
Qed.

Lemma upstream_rejected w openai ev e :
  getOpenAIClient w = resolved openai ->
  In ev (trace (POST w)) ->
  upstreamError openai ev = Some e ->
  response (POST w)
  = Some (mkResponse (error_body (messageOf e)) (statusOf (messageOf e))).
Proof.
  intros Hc Hin He. revert Hin. run_cases.
  all: intros Hin; pick_event Hin.
  all: subst ev; cbn [upstreamError] in He; try discriminate.
  all: try congruence.
  all: injection Hc as <-.
  all: repeat match goal with
         | H : responses_create _ _ = _ |- _ => rewrite H in He; clear H
         | H : audio_speech_create _ _ = _ |- _ => rewrite H in He; clear H
         | H : arrayBuffer _ = _ |- _ => rewrite H in He; clear H
         end.
  all: congruence.
Qed.

(** C6, as the handler has it. When the generation call resolves with no
    text, or with text that is empty once trimmed, the answer is 502;
    when the generation call, the speech call or the reading of its audio
    fails with a thrown error, the [catch] block answers with that error's
    message, under status 500 or 400. *)
Theorem generation_outcome w openai ev :
  getOpenAIClient w = resolved openai ->
  In ev (trace (POST w)) ->
  (emptyScript openai ev = true ->
   response (POST w)
   = Some (mkResponse
             (error_body (js "Failed to generate a script. Try again with different source material."))
             502%N))
  /\ (forall e,
      upstreamError openai ev = Some e ->
      response (POST w)
      = Some (mkResponse (error_body (messageOf e)) (statusOf (messageOf e)))).
Proof.
  intros Hc Hin. split.
  - intros He. exact (generation_empty w ev Hc Hin He).
  - intros e He. exact (upstream_rejected w ev Hc Hin He).
Qed.

(** *** The voice *)

Lemma voice_rejected lib p v :
  voiceAccepted v = false ->
  Zod.issues (voiceSchema lib p (Some v)) <> [].
Proof.
  unfold voiceSchema, Zod.default, Zod.string_, voiceAccepted.
  destruct v as [| | | s | |];
    cbn [Zod.issues Zod.runChecks Zod.violates]; try discriminate.
  unfold voiceRegex.
  destruct (Nat.ltb (JsString.length s) 2) eqn:E1; [discriminate|].
  destruct (Nat.ltb 32 (JsString.length s)) eqn:E2; [discriminate|].
  apply Nat.ltb_ge in E1, E2.
  apply Nat.leb_le in E1, E2. rewrite E1, E2.
  cbn [andb app]. intros ->. rewrite andb_false_r. discriminate.
Qed.

Lemma voice_accepted lib p s :
  voiceAccepted (JString s) = true ->
  voiceSchema lib p (Some (JString s)) = Zod.mkParsed [] (Some s).
Proof.
  unfold voiceSchema, Zod.default, Zod.string_, voiceAccepted.
  intros H. apply andb_true_iff in H. destruct H as [H Hall].
  apply andb_true_iff in H. destruct H as [Hlo Hhi].
  cbn [Zod.runChecks Zod.violates]. unfold voiceRegex. rewrite Hall.
  apply Nat.leb_le in Hlo, Hhi.
  assert (E1 : Nat.ltb (JsString.length s) 2 = false) by (apply Nat.ltb_ge; lia).
  assert (E2 : Nat.ltb 32 (JsString.length s) = false) by (apply Nat.ltb_ge; lia).
  rewrite E1, E2.
  destruct s; [cbn in Hlo; lia|]. reflexivity.
Qed.

(** An issue on any key makes the parse fail. *)
Lemma voice_issue_fails lib fields :
  ~ voiceOk lib fields ->
  exists first rest, requestSchema lib (JObject fields) = failure (first :: rest).
Proof.
  intros H.
  assert (Hne : shapeIssues lib fields <> []).
  { unfold shapeIssues. intros E.
    apply app_eq_nil in E. destruct E as [_ E].
    apply app_eq_nil in E. destruct E as [E _]. exact (H E). }
  rewrite (requestSchema_failure lib fields Hne).
  destruct (shapeIssues lib fields) as [|first rest]; [congruence|].
  exists first, rest. reflexivity.
Qed.

(** C8, as the schema has it. An omitted voice is parsed as ["alloy"]; a
    voice that is a string of 2 to 32 ASCII letters of either case and
    hyphens is accepted as it is; any other voice value is answered with
    status 400 and no collaborator is called. *)
Theorem voice_rule w fields :
  request_json w = resolved (JObject fields) ->
  (get (js "voice") fields = None ->
   voiceOk (zod w) fields
   /\ forall data,
       requestSchema (zod w) (JObject fields) = success data ->
       voice data = js "alloy")
  /\ (forall s,
      get (js "voice") fields = Some (JString s) ->
      voiceAccepted (JString s) = true ->
      voiceOk (zod w) fields
      /\ forall data,
          requestSchema (zod w) (JObject fields) = success data ->
          voice data = s)
  /\ (forall v,
      get (js "voice") fields = Some v ->
      voiceAccepted v = false ->
      (exists m, response (POST w) = Some (mkResponse (error_body m) 400%N))
      /\ trace (POST w) = []).
Proof.
  intros Hj. split; [|split].
  - intros Habsent. split.
    + unfold voiceOk. rewrite Habsent. reflexivity.
    + intros data R. apply success_inv in R.
      destruct R as (_ & _ & Vv & _). rewrite Habsent in Vv.
      cbn in Vv. injection Vv as <-. reflexivity.
  - intros s Hs Hacc. split.
    + unfold voiceOk. rewrite Hs, (voice_accepted (zod w) _ s Hacc). reflexivity.
    + intros data R. apply success_inv in R.
      destruct R as (_ & _ & Vv & _).
      rewrite Hs, (voice_accepted (zod w) _ s Hacc) in Vv.
      cbn in Vv. injection Vv as <-. reflexivity.
  - intros v Hv Hrej.
    assert (Hbad : ~ voiceOk (zod w) fields).
    { unfold voiceOk. rewrite Hv. apply voice_rejected. exact Hrej. }
    destruct (voice_issue_fails Hbad) as (first & rest & R).
    rewrite (POST_invalid w Hj R). split; [eexists|]; reflexivity.
Qed.

(* ================================================================= *)
(** ** The helpers on concrete values *)

Example trim_removes_outer_whitespace :
  trim (js "  a b  ") = js "a b"
  /\ trim [9; 160; 65279; 97; 8232; 13]%N = [97]%N
  /\ trim (js "    ") = [].
Proof. repeat split; reflexivity. Qed.

Example includes_finds_a_substring :
  includes (js "Missing OPENAI_API_KEY in environment") (js "OPENAI_API_KEY") = true
  /\ includes (js "fetch failed") (js "Failed to fetch") = false
  /\ includes (js "anything") [] = true.
Proof. repeat split; reflexivity. Qed.

Example voiceRegex_ignores_case :
  voiceRegex (js "alloy") = true
  /\ voiceRegex (js "Verse-HD") = true
  /\ voiceRegex (js "voice2") = false
  /\ voiceRegex [] = false.
Proof. repeat split; reflexivity. Qed.

Example base64_pads_to_four :
  Base64.encode (js "M") = js "TQ=="
  /\ Base64.encode (js "Ma") = js "TWE="
  /\ Base64.encode (js "Man") = js "TWFu"
  /\ Base64.encode [255; 254; 253; 252]%N = js "//79/A==".
Proof. repeat split; reflexivity. Qed.

(* ================================================================= *)
(** ** The handler on concrete requests *)

Example text_request_succeeds :
  POST (Sample.world Sample.textRequest)
  = (returned (mkResponse
                 (success_body (js "Welcome to the show.") (js "SUQzBAA="))
                 200%N),
     [call_getOpenAIClient;
      call_responses_create (scriptParams Sample.article);
      call_audio_speech_create
        (mkSpeechParams (js "gpt-4o-mini-tts") (js "alloy")
                        (js "Welcome to the show."));
      call_arrayBuffer]).
Proof. vm_compute. reflexivity. Qed.

Example short_text_is_rejected_by_the_schema :
  POST (Sample.world Sample.shortText)
  = (returned (mkResponse
                 (error_body (js "Provide at least 50 characters of text."))
                 400%N),
     []).
Proof. vm_compute. reflexivity. Qed.

Example padded_text_is_rejected_by_the_handler :
  POST (Sample.world Sample.paddedText)
  = (returned (mkResponse
                 (error_body (js "Please provide at least 50 characters of text."))
                 400%N),
     []).
Proof. vm_compute. reflexivity. Qed.

Example url_request_calls_the_extractor_first :
  trace (POST (Sample.world Sample.urlRequest))
  = [call_extractFromUrl (js "https://example.com/article");
     call_getOpenAIClient;
     call_responses_create (scriptParams Sample.article);
     call_audio_speech_create
       (mkSpeechParams (js "gpt-4o-mini-tts") (js "alloy")
                       (js "Welcome to the show."));
     call_arrayBuffer].
Proof. vm_compute. reflexivity. Qed.

(** The issue of the mode comes before those of the voice, and the
    length check of the voice before its pattern. *)
Example issues_follow_the_schema :
  List.map Zod.code
    (match requestSchema Sample.lib Sample.badModeAndVoice with
     | failure errs => errs
     | success _ => []
     end)
  = [Zod.invalid_enum_value Mode.options (js "audio");
     Zod.too_small 2;
     Zod.invalid_string_regex].
Proof. vm_compute. reflexivity. Qed.

Example bad_voice_reports_its_length_first :
  POST (Sample.world Sample.badVoice)
  = (returned (mkResponse
                 (error_body (Sample.errorMap (Zod.too_small 2)))
                 400%N),
     []).
Proof. vm_compute. reflexivity. Qed.

Example unreachable_page_is_a_500 :
  response (POST Sample.unreachablePage)
  = Some (mkResponse (error_body (js "Failed to fetch URL (status 404)")) 500%N).
Proof. vm_compute. reflexivity. Qed.

(* ================================================================= *)
(** ** Where the handler departs from the description *)

(** C2. A well-formed video request whose transcript extraction fails
    with a thrown error is answered 400 with the error's message, not
    422. *)
Lemma failed_extraction_is_not_422 :
  (exists data, requestSchema Sample.lib Sample.videoRequest = success data)
  /\ extractFromYouTube Sample.noCaptions
       (js "https://youtube.com/watch?v=PRIVATE_ID")
     = rejected Sample.transcriptDisabled
  /\ In (call_extractFromYouTube (js "https://youtube.com/watch?v=PRIVATE_ID"))
        (trace (POST Sample.noCaptions))
  /\ response (POST Sample.noCaptions)
     = Some (mkResponse (error_body (js "Transcript is disabled on this video"))
                        400%N)
  /\ 400%N <> 422%N.
Proof.
  split; [eexists; vm_compute; reflexivity|].
  split; [reflexivity|].
  split; [vm_compute; auto|].
  split; [vm_compute; reflexivity | discriminate].
Qed.

(** C6. A request whose generation call fails with a thrown error, and
    one whose speech call does, are answered 400 with the error's
    message, not 502. *)
Lemma failed_generation_is_not_502 :
  upstreamError Sample.failingModel
    (call_responses_create (scriptParams Sample.article))
  = Some Sample.rateLimited
  /\ In (call_responses_create (scriptParams Sample.article))
        (trace (POST Sample.generationDown))
  /\ response (POST Sample.generationDown)
     = Some (mkResponse (error_body (js "429 Rate limit reached")) 400%N)
  /\ response (POST Sample.synthesisDown)
     = Some (mkResponse (error_body (js "Connection error.")) 400%N)
  /\ 400%N <> 502%N.
Proof.
  split; [reflexivity|].
  split; [vm_compute; auto|].
  split; [vm_compute; reflexivity|].
  split; [vm_compute; reflexivity | discriminate].
Qed.

(** C8. An upper-case voice is outside the lower-case pattern, yet the
    request is accepted and the voice reaches the speech call. *)
Lemma uppercase_voice_is_accepted :
  lowercaseVoicePattern (js "ALLOY") = false
  /\ get (js "voice")
         [Sample.field "mode" "text"; Sample.field "voice" "ALLOY";
          (js "content", JString Sample.article)]
     = Some (JString (js "ALLOY"))
  /\ POST (Sample.world Sample.upperVoice)
     = (returned (mkResponse
                    (success_body (js "Welcome to the show.") (js "SUQzBAA="))
                    200%N),
        [call_getOpenAIClient;
         call_responses_create (scriptParams Sample.article);
         call_audio_speech_create
           (mkSpeechParams (js "gpt-4o-mini-tts") (js "ALLOY")
                           (js "Welcome to the show."));
         call_arrayBuffer]).
Proof.
  split; [reflexivity|]. split; [reflexivity|]. vm_compute. reflexivity.
Qed.

(** C7. The kind of fault does not decide the status.  A speech call
    that cannot connect and an extractor whose host cannot be reached are
    unreachable-network faults; both are caught and answered 400.  A
    page that was reached and answered 404 is neither a configuration nor
    an unreachable-network fault; it is caught and answered 500, because its
    message begins with [Failed to fetch]. *)
Lemma network_faults_get_400 :
  In (console_error Sample.connectionError) (trace (POST Sample.synthesisDown))
  /\ response (POST Sample.synthesisDown)
     = Some (mkResponse (error_body (js "Connection error.")) 400%N)
  /\ In (console_error Sample.hostUnreachable) (trace (POST Sample.networkDown))
  /\ response (POST Sample.networkDown)
     = Some (mkResponse (error_body (js "fetch failed")) 400%N)
  /\ In (console_error Sample.fetchFailed) (trace (POST Sample.unreachablePage))
  /\ response (POST Sample.unreachablePage)
     = Some (mkResponse (error_body (js "Failed to fetch URL (status 404)")) 500%N)
  /\ 400%N <> 500%N.
Proof.
  split; [vm_compute; auto|].
  split; [vm_compute; reflexivity|].
  split; [vm_compute; auto|].
  split; [vm_compute; reflexivity|].
  split; [vm_compute; auto|].
  split; [vm_compute; reflexivity | discriminate].
Qed.

(** C9. A missing credential is logged and its own message, not a
    generic one, is what the caller receives. *)
Lemma raw_message_reaches_the_caller :
  In (console_error Sample.missingKey) (trace (POST Sample.noCredentials))
  /\ response (POST Sample.noCredentials)
     = Some (mkResponse (error_body (js "OPENAI_API_KEY is not set")) 500%N)
  /\ js "OPENAI_API_KEY is not set" <> js "Unexpected server error.".
Proof.
  split; [vm_compute; auto|].
  split; [vm_compute; reflexivity | discriminate].
Qed.

(* ================================================================= *)
(** ** The theorems at concrete requests *)

Lemma invalid_payload_first_issue_witness :
  exists first rest,
    [Zod.issue Sample.lib (Zod.invalid_enum_value Mode.options (js "audio"))
       [js "mode"] None;
     Zod.issue Sample.lib (Zod.too_small 2) [js "voice"] None;
     Zod.issue Sample.lib Zod.invalid_string_regex [js "voice"]
       (Some (js "Voice id must be alphanumeric or hyphenated"))]
    = first :: rest
    /\ (forall fields,
           Sample.badModeAndVoice = JObject fields ->
           [Zod.issue Sample.lib (Zod.invalid_enum_value Mode.options (js "audio"))
              [js "mode"] None;
            Zod.issue Sample.lib (Zod.too_small 2) [js "voice"] None;
            Zod.issue Sample.lib Zod.invalid_string_regex [js "voice"]
              (Some (js "Voice id must be alphanumeric or hyphenated"))]
           = shapeIssues Sample.lib fields)
    /\ POST (Sample.world Sample.badModeAndVoice)
       = (returned (mkResponse (error_body (Zod.message first)) 400%N), []).
Proof.
  apply (@invalid_payload_first_issue
           (Sample.world Sample.badModeAndVoice) Sample.badModeAndVoice);
    reflexivity.
Defined.

Lemma short_text_rejected_witness :
  exists m,
    response (POST (Sample.world Sample.shortText))
    = Some (mkResponse (error_body m) 400%N)
    /\ trace (POST (Sample.world Sample.shortText)) = []
    /\ includes m (js "at least 50 characters") = true.
Proof.
  destruct (@short_text_rejected (Sample.world Sample.shortText)
              [Sample.field "mode" "text"; Sample.field "content" "short"]
              (js "short") eq_refl eq_refl eq_refl
              (proj1 (Nat.ltb_lt (JsString.length (trim (js "short"))) 50) eq_refl))
    as (m & Hresponse & Htrace & Hmessage).
  exists m. split; [exact Hresponse|]. split; [exact Htrace|].
  apply Hmessage; reflexivity.
Defined.

Lemma absent_content_is_empty_text_witness :
  trace (POST (Sample.world Sample.noContent)) = []
  /\ (exists data,
         requestSchema Sample.lib Sample.noContent = success data
         /\ mode data = Mode.text /\ content data = None)
  /\ response (POST (Sample.world Sample.noContent))
     = Some (mkResponse
               (error_body (js "Please provide at least 50 characters of text."))
               400%N).
Proof.
  destruct (@absent_content_is_empty_text (Sample.world Sample.noContent)
              [Sample.field "mode" "text"] eq_refl eq_refl eq_refl)
    as (_ & Htrace & Hvalid).
  split; [exact Htrace|]. apply Hvalid; reflexivity.
Defined.

Lemma missing_field_rejected_witness :
  (exists m,
      response (POST (Sample.world Sample.urlMissing))
      = Some (mkResponse (error_body m) 400%N)
      /\ trace (POST (Sample.world Sample.urlMissing)) = []
      /\ m = js "Missing URL for webpage mode.")
  /\
  (exists m,
      response (POST (Sample.world Sample.videoMissing))
      = Some (mkResponse (error_body m) 400%N)
      /\ trace (POST (Sample.world Sample.videoMissing)) = []
      /\ m = js "Missing video URL for YouTube mode.").
Proof.
  split.
  - destruct (proj1 (@missing_field_rejected (Sample.world Sample.urlMissing)
                       [Sample.field "mode" "url"] eq_refl) eq_refl eq_refl)
      as (m & Hresponse & Htrace & Hmessage).
    exists m. split; [exact Hresponse|]. split; [exact Htrace|].
    apply Hmessage; reflexivity.
  - destruct (proj2 (@missing_field_rejected (Sample.world Sample.videoMissing)
                       [Sample.field "mode" "video"] eq_refl) eq_refl eq_refl)
      as (m & Hresponse & Htrace & Hmessage).
    exists m. split; [exact Hresponse|]. split; [exact Htrace|].
    apply Hmessage; reflexivity.
Defined.

Lemma caught_failure_status_by_message_witness :
  (exists r,
      response (POST Sample.noCredentials) = Some r
      /\ body r = error_body (js "OPENAI_API_KEY is not set")
      /\ status r = 500%N)
  /\
  (exists r,
      response (POST Sample.networkDown) = Some r
      /\ body r = error_body (js "fetch failed")
      /\ status r = 400%N).
Proof.
  split.
  - assert (Hin : In (console_error Sample.missingKey)
                     (trace (POST Sample.noCredentials)))
      by (vm_compute; auto).
    destruct (@caught_failure_status_by_message Sample.noCredentials
                Sample.missingKey Hin) as (r & Hr & Hb & H500 & _).
    exists r. split; [exact Hr|]. split; [exact Hb|].
    apply H500. left. reflexivity.
  - assert (Hin : In (console_error Sample.hostUnreachable)
                     (trace (POST Sample.networkDown)))
      by (vm_compute; auto).
    destruct (@caught_failure_status_by_message Sample.networkDown
                Sample.hostUnreachable Hin) as (r & Hr & Hb & _ & H400).
    exists r. split; [exact Hr|]. split; [exact Hb|].
    apply H400. split; reflexivity.
Defined.

Lemma caught_failure_message_witness :
  exists r,
    response (POST Sample.noCredentials) = Some r
    /\ body r = error_body (js "OPENAI_API_KEY is not set").
Proof.
  apply (@caught_failure_message Sample.noCredentials Sample.missingKey).
  vm_compute. auto.
Defined.

Lemma extraction_outcome_witness :
  (falsy (Some []) = true ->
   response (POST Sample.emptyPage)
   = Some (mkResponse
             (error_body (js "Unable to derive source material for the podcast."))
             422%N))
  /\ response (POST Sample.noCaptions)
     = Some (mkResponse (error_body (messageOf Sample.transcriptDisabled))
                        (statusOf (messageOf Sample.transcriptDisabled))).
Proof.
  split.
  - apply (@extraction_outcome Sample.emptyPage
             (call_extractFromUrl (js "https://example.com/article"))
             (resolved (Some []))).
    + vm_compute. auto.
    + reflexivity.
  - apply (@extraction_outcome Sample.noCaptions
             (call_extractFromYouTube (js "https://youtube.com/watch?v=PRIVATE_ID"))
             (rejected Sample.transcriptDisabled)).
    + vm_compute. auto.
    + reflexivity.
Defined.

Lemma generation_outcome_witness :
  response (POST Sample.generationSilent)
  = Some (mkResponse
            (error_body (js "Failed to generate a script. Try again with different source material."))
            502%N)
  /\ response (POST Sample.synthesisDown)
     = Some (mkResponse (error_body (messageOf Sample.connectionError))
                        (statusOf (messageOf Sample.connectionError))).
Proof.
  split.
  - apply (@generation_outcome Sample.generationSilent Sample.silentModel
             (call_responses_create (scriptParams Sample.article))).
    + reflexivity.
    + vm_compute. auto.
    + reflexivity.
  - apply (@generation_outcome Sample.synthesisDown Sample.failingSpeech
             (call_audio_speech_create
                (mkSpeechParams (js "gpt-4o-mini-tts") (js "alloy")
                                (js "Welcome to the show.")))).
    + reflexivity.
    + vm_compute. auto.
    + reflexivity.
Defined.

Lemma voice_rule_witness :
  (forall data,
      requestSchema Sample.lib Sample.textRequest = success data ->
      voice data = js "alloy")
  /\ (forall data,
         requestSchema Sample.lib Sample.upperVoice = success data ->
         voice data = js "ALLOY")
  /\ (exists m,
         response (POST (Sample.world Sample.badVoice))
         = Some (mkResponse (error_body m) 400%N))
  /\ trace (POST (Sample.world Sample.badVoice)) = [].
Proof.
  split; [|split].
  - apply (proj1
             (@voice_rule (Sample.world Sample.textRequest)
                [Sample.field "mode" "text"; (js "content", JString Sample.article)]
                eq_refl)).
    reflexivity.
  - apply (proj1 (proj2
             (@voice_rule (Sample.world Sample.upperVoice)
                [Sample.field "mode" "text"; Sample.field "voice" "ALLOY";
                 (js "content", JString Sample.article)]
                eq_refl)) (js "ALLOY")); reflexivity.
  - apply (proj2 (proj2
             (@voice_rule (Sample.world Sample.badVoice)
                [Sample.field "mode" "text"; Sample.field "voice" "!";
                 (js "content", JString Sample.article)]
                eq_refl)) (JString (js "!"))); reflexivity.
Defined.

(* ================================================================= *)
(** ** Further properties of the handler *)

(** X1. Validation comes before any collaborator: a run that calls an
    extractor, the client, generation or synthesis is a run whose body
    parsed as JSON and passed the schema. *)
Theorem calls_follow_validation w ev :
  In ev (trace (POST w)) ->
  isCall ev = true ->
  exists payload data,
    request_json w = resolved payload
    /\ requestSchema (zod w) payload = success data.
Proof.
  intros Hin Hcall. revert Hin. run_cases.
  all: intros Hin; pick_event Hin.
  all: try (subst ev; discriminate Hcall).
  all: eauto.
Qed.

Lemma falsy_Some_true s : falsy (Some s) = true <-> s = [].
Proof. destruct s; cbn; split; congruence. Qed.

Lemma falsy_Some_false s : falsy (Some s) = false <-> s <> [].
Proof. destruct s; cbn; split; congruence. Qed.

(** Reads the equations between events and between optional strings. *)
Ltac inject_events :=
  repeat match goal with
    | H : Some ?a = Some ?b |- _ => injection H as H; try subst a; try subst b
    | H : call_extractFromUrl _ = call_extractFromUrl _ |- _ =>
        injection H as H; subst
    | H : call_extractFromYouTube _ = call_extractFromYouTube _ |- _ =>
        injection H as H; subst
    | H : falsy (Some _) = true |- _ => apply falsy_Some_true in H
    | H : falsy (Some _) = false |- _ => apply falsy_Some_false in H
    end.

(** X2. The extractor that is called is the one of the mode, with the
    url the request carries: the page extractor exactly for a url request
    with a non-empty [url], the transcript extractor exactly for a video
    request with a non-empty [videoUrl]; a text request calls neither. *)
Theorem extractor_matches_mode w payload data u :
  request_json w = resolved payload ->
  requestSchema (zod w) payload = success data ->
  (In (call_extractFromUrl u) (trace (POST w))
   <-> mode data = Mode.url /\ url data = Some u /\ u <> [])
  /\
  (In (call_extractFromYouTube u) (trace (POST w))
   <-> mode data = Mode.video /\ videoUrl data = Some u /\ u <> []).
Proof.
  intros Hj Hp. unfold_handler. rewrite Hj, Hp.
  repeat (branch; cbn [fst snd app In] in * ).
  all: try match goal with a : Empty_set |- _ => destruct a end.
  all: split; split.
  all: try (intros (? & ? & ?); try congruence).
  all: try (intros Hin; pick_event Hin; try discriminate).
  all: inject_events.
  all: try congruence.
  all: try (left; reflexivity).
  all: try (repeat split; assumption).
Qed.

(** X3. What a 200 answer means: the client was built, generation
    resolved with text that is non-empty once trimmed, the speech call was
    made with the model [gpt-4o-mini-tts], the validated voice and that
    trimmed script, its audio was read, and the body carries the trimmed
    script and the base64 of those audio bytes. *)
Theorem success_inversion w r :
  response (POST w) = Some r ->
  status r = 200%N ->
  exists payload data openai prompt out raw speech bytes,
    request_json w = resolved payload
    /\ requestSchema (zod w) payload = success data
    /\ getOpenAIClient w = resolved openai
    /\ responses_create openai (scriptParams prompt) = resolved out
    /\ output_text out = Some raw
    /\ trim raw <> []
    /\ audio_speech_create openai
         (mkSpeechParams (js "gpt-4o-mini-tts") (voice data) (trim raw))
       = resolved speech
    /\ arrayBuffer speech = resolved bytes
    /\ body r = success_body (trim raw) (Base64.encode bytes).
Proof.
  run_cases.
  all: intros Hr Hs; injection Hr as <-; cbn [status] in Hs.
  all: try discriminate.
  all: try (destruct (statusOf_cases (messageOf e)) as [E | E];
            rewrite E in Hs; discriminate).
  all: match goal with
       | H : option_map trim (output_text ?o) = Some _ |- _ =>
           destruct (output_text o) as [raw|] eqn:Eraw; [|discriminate];
           cbn in H; injection H as <-
       end.
  all: match goal with
       | H : falsy _ || _ = false |- _ =>
           apply orb_false_iff in H; destruct H as [H _];
           apply falsy_Some_false in H
       end.
  all: do 8 eexists; repeat split; eauto.
Qed.

(** X4. The stages run in the order of the pipeline and each at most
    once: along any trace the stage numbers strictly increase, so an
    extractor comes before the client, the client before generation,
    generation before speech, speech before the reading of its audio, and
    the log of a caught failure comes last. *)
Theorem stages_in_order w :
  StronglySorted lt (List.map stage (trace (POST w))).
Proof.
  run_cases.
  all: cbn [List.map stage]; repeat constructor.
Qed.

(** X5. A 500 answer only ever comes from the [catch] block: the trace
    ends with the log of the failure, the body is that failure's message,
    and the message names [OPENAI_API_KEY] or says [Failed to fetch]. *)
Theorem internal_error_is_caught w r :
  response (POST w) = Some r ->
  status r = 500%N ->
  exists e calls,
    trace (POST w) = calls ++ [console_error e]
    /\ Forall (fun ev => isCall ev = true) calls
    /\ body r = error_body (messageOf e)
    /\ configurationFault e || unreachableNetworkFault e = true.
Proof.
  run_cases.
  all: intros Hr Hs; injection Hr as <-; cbn [status] in Hs.
  all: try discriminate.
  all: match goal with
       | |- context [console_error ?e] =>
           exists e; eexists;
           split; [match goal with
                   | |- ?l = _ =>
                       change l with (removelast l ++ [last l (console_error e)]);
                       reflexivity
                   end|]
       end.
  all: split; [cbn; repeat constructor|].
  all: split; [reflexivity|].
  all: unfold configurationFault, unreachableNetworkFault.
  all: unfold statusOf in Hs.
  all: match goal with |- ?b = true => destruct b; [reflexivity | discriminate] end.
Qed.

(** X6. A 422 answer costs one extractor call and nothing else: the
    request was a url or video request, its extractor resolved with no
    text, and neither the client nor the log was reached. *)
Theorem unprocessable_stops_after_extraction w r :
  response (POST w) = Some r ->
  status r = 422%N ->
  body r = error_body (js "Unable to derive source material for the podcast.")
  /\ exists u text,
      falsy text = true
      /\ (trace (POST w) = [call_extractFromUrl u]
          /\ extractFromUrl w u = resolved text
          \/ trace (POST w) = [call_extractFromYouTube u]
             /\ extractFromYouTube w u = resolved text).
Proof.
  run_cases.
  all: intros Hr Hs; injection Hr as <-; cbn [status] in Hs.
  all: try discriminate.
  all: try (destruct (statusOf_cases (messageOf e)) as [E | E];
            rewrite E in Hs; discriminate).
  all: split; [reflexivity|].
  all: try match goal with
           | H : falsy (Some (trim ?c)) = true,
             H' : Nat.ltb (JsString.length (trim ?c)) 50 = false |- _ =>
               apply falsy_Some_true in H; rewrite H in H'; discriminate
           end.
  all: match goal with
       | H : extractFromUrl _ ?u = resolved ?t |- _ =>
           exists u, t; split; [|left; split; [reflexivity | exact H]]
       | H : extractFromYouTube _ ?u = resolved ?t |- _ =>
           exists u, t; split; [|right; split; [reflexivity | exact H]]
       end.
  all: first [assumption | reflexivity].
Qed.

(** X7. A 502 answer stops at generation: the trace ends with the
    generation call, which resolved with no text or with text that is
    empty once trimmed; no speech call is made and nothing is logged. *)
Theorem bad_gateway_stops_after_generation w r :
  response (POST w) = Some r ->
  status r = 502%N ->
  body r = error_body
             (js "Failed to generate a script. Try again with different source material.")
  /\ exists before openai prompt out,
      trace (POST w)
      = before ++ [call_getOpenAIClient; call_responses_create (scriptParams prompt)]
      /\ Forall (fun ev => stage ev = 0) before
      /\ getOpenAIClient w = resolved openai
      /\ responses_create openai (scriptParams prompt) = resolved out
      /\ falsy (option_map trim (output_text out)) = true.
Proof.
  run_cases.
  all: intros Hr Hs; injection Hr as <-; cbn [status] in Hs.
  all: try discriminate.
  all: try (destruct (statusOf_cases (messageOf e)) as [E | E];
            rewrite E in Hs; discriminate).
  all: split; [reflexivity|].
  all: match goal with
       | Hc : getOpenAIClient _ = resolved ?o,
         Hg : responses_create ?o (scriptParams ?p) = resolved ?out |- _ =>
           match goal with
           | |- context [?ev :: call_getOpenAIClient :: _] =>
               exists [ev], o, p, out
           | |- _ => exists [], o, p, out
           end
       end.
  all: split; [reflexivity|].
  all: split; [repeat constructor|].
  all: split; [reflexivity|].
  all: split; [assumption|].
  all: match goal with
       | H : option_map trim _ = _ |- _ => rewrite H
       end.
  all: try reflexivity.
  all: match goal with
       | H : falsy (Some ?s) || (JsString.length ?s =? 0) = true |- _ =>
           destruct s; [reflexivity | cbn in H; discriminate]
       end.
Qed.

(** A body that is not JSON is answered from the [catch] block: the
    error [request.json()] throws is logged, its message is the body, and
    no collaborator is called. *)
Lemma unreadable_body w e :
  request_json w = rejected e ->
  POST w
  = (returned (mkResponse (error_body (messageOf e)) (statusOf (messageOf e))),
     [console_error e]).
Proof.
  intros Hj. unfold_handler. rewrite Hj. reflexivity.
Qed.

(** X8. A JSON body that is not an object -- null, a boolean, a number,
    a string or an array -- is answered 400 with zod's message for a value
    of the wrong type, and nothing is called. *)
Theorem non_object_body w payload :
  request_json w = resolved payload ->
  (forall fields, payload <> JObject fields) ->
  POST w
  = (returned
       (mkResponse
          (error_body
             (Zod.errorMap (zod w)
                (Zod.invalid_type Zod.t_object (Zod.getParsedType (Some payload)))))
          400%N),
     []).
Proof.
  intros Hj Hno.
  destruct payload as [| b | literal | s | items | fields];
    try (unfold_handler; rewrite Hj; reflexivity).
  exfalso. exact (Hno fields eq_refl).
Qed.

(** The schema reads a payload object through its five keys only. *)
Lemma requestSchema_reads_shape lib fields fields' :
  (forall key, In key shapeKeys -> get key fields = get key fields') ->
  requestSchema lib (JObject fields) = requestSchema lib (JObject fields').
Proof.
  intros H. unfold requestSchema, shapeIssues.
  rewrite (H (js "mode")), (H (js "voice")), (H (js "content")),
    (H (js "url")), (H (js "videoUrl")) by (cbn; tauto).
  reflexivity.
Qed.

(** X9. Keys outside the schema's shape are ignored: two payload
    objects that agree on [mode], [voice], [content], [url] and
    [videoUrl] get the same answer and cause the same calls, whatever
    else they carry. *)
Theorem unknown_keys_are_ignored w fields fields' :
  (forall key, In key shapeKeys -> get key fields = get key fields') ->
  POST (withBody w (resolved (JObject fields)))
  = POST (withBody w (resolved (JObject fields'))).
Proof.
  intros H. unfold POST, try_catch, bind, settle, withBody.
  cbn [request_json zod extractFromUrl extractFromYouTube buildScriptPrompt
       getOpenAIClient].
  rewrite (requestSchema_reads_shape (zod w) fields fields' H). reflexivity.
Qed.

Lemma get_other_key key k v fields :
  JsString.eqb k key = false ->
  get key ((k, v) :: fields) = get key fields.
Proof. intros E. cbn. rewrite E. reflexivity. Qed.

Lemma unknown_keys_are_ignored_witness :
  POST (withBody (Sample.world JNull)
          (resolved (JObject [Sample.field "debug" "yes";
                              Sample.field "mode" "text";
                              (js "content", JString Sample.article)])))
  = POST (withBody (Sample.world JNull)
            (resolved (JObject [Sample.field "mode" "text";
                                (js "content", JString Sample.article)]))).
Proof.
  apply unknown_keys_are_ignored.
  intros key Hkey. apply get_other_key.
  cbn in Hkey. repeat destruct Hkey as [<- | Hkey]; try reflexivity.
  contradiction.
Defined.

(** The voice of a parsed request satisfies the voice rule. *)
Lemma parsed_voice_accepted lib fields data :
  requestSchema lib (JObject fields) = success data ->
  voiceAccepted (JString (voice data)) = true.
Proof.
  intros R. destruct (@success_inv lib fields data R) as (E & _ & Vv & _).
  unfold shapeIssues in E.
  apply app_eq_nil in E. destruct E as [_ E].
  apply app_eq_nil in E. destruct E as [E _].
  destruct (get (js "voice") fields) as [v|] eqn:Hv.
  - destruct (voiceAccepted v) eqn:Hacc.
    + destruct v as [| | | s | |]; try discriminate.
      rewrite (voice_accepted lib _ s Hacc) in Vv. cbn in Vv.
      injection Vv as <-. exact Hacc.
    + exfalso. exact (voice_rejected lib _ v Hacc E).
  - cbn in Vv. injection Vv as <-. reflexivity.
Qed.

Lemma success_is_object lib payload data :
  requestSchema lib payload = success data ->
  exists fields, payload = JObject fields.
Proof.
  destruct payload; try discriminate. eauto.
Qed.

(** X10. Whatever reaches speech synthesis is well-formed: the model
    is [gpt-4o-mini-tts], the voice is the request's validated voice -- a
    string of 2 to 32 ASCII letters and hyphens, ["alloy"] when the
    request named none -- and the input is non-empty. *)
Theorem speech_call_is_well_formed w p :
  In (call_audio_speech_create p) (trace (POST w)) ->
  speech_model p = js "gpt-4o-mini-tts"
  /\ voiceAccepted (JString (speech_voice p)) = true
  /\ speech_input p <> []
  /\ exists payload data,
      request_json w = resolved payload
      /\ requestSchema (zod w) payload = success data
      /\ speech_voice p = voice data.
Proof.
  run_cases.
  all: intros Hin; pick_event Hin; try discriminate.
  all: injection Hin as <-; cbn [speech_model speech_voice speech_input].
  all: split; [reflexivity|].
  all: match goal with
       | H : requestSchema _ ?a = success ?d |- _ =>
           destruct (success_is_object _ _ H) as (fields & ->);
           split; [exact (parsed_voice_accepted _ _ H)|]
       end.
  all: split; [|eauto].
  all: match goal with
       | H : falsy _ || _ = false |- _ =>
           apply orb_false_iff in H; destruct H as [H _];
           apply falsy_Some_false in H; exact H
       end.
Qed.

(** X11. Whatever reaches script generation is built from the request:
    the prompt is the one [buildScriptPrompt] made from a non-empty source
    text, the request's mode and its origin (none for pasted text, the url
    or video url otherwise), and it is sent as the user message after the
    fixed system message; for pasted text the source is the trimmed
    content, of at least 50 code units. *)
Theorem generation_call_is_well_formed w p :
  In (call_responses_create p) (trace (POST w)) ->
  exists payload data text prompt,
    request_json w = resolved payload
    /\ requestSchema (zod w) payload = success data
    /\ buildScriptPrompt w (mkPromptArgs text (mode data) (originOf data))
       = resolved prompt
    /\ p = scriptParams prompt
    /\ input p = [mkMessage (js "system") systemPrompt;
                  mkMessage (js "user") prompt]
    /\ text <> []
    /\ (mode data = Mode.text ->
        exists c, content data = Some c /\ text = trim c
                  /\ 50 <= JsString.length text).
Proof.
  run_cases.
  all: intros Hin; pick_event Hin; try discriminate.
  all: injection Hin as <-.
  all: match goal with
       | Hb : buildScriptPrompt _ (mkPromptArgs ?t _ _) = resolved ?pr |- _ =>
           eexists; eexists; exists t, pr
       end.
  all: unfold originOf.
  all: repeat match goal with
         | H : mode _ = _ |- _ => rewrite H
         | H : url _ = Some _ |- _ => rewrite H
         | H : videoUrl _ = Some _ |- _ => rewrite H
         end.
  all: split; [reflexivity|].
  all: split; [eassumption|].
  all: split; [assumption|].
  all: split; [reflexivity|].
  all: split; [reflexivity|].
  all: inject_events.
  all: split; [assumption|].
  all: intros Hm; try discriminate.
  all: eexists; split; [eassumption|]; split; [reflexivity|].
  all: match goal with
       | H : Nat.ltb _ 50 = false |- _ => apply Nat.ltb_ge in H; exact H
       end.
Qed.

(* ================================================================= *)
(** ** The audio, from the handler to the page *)

(** Induction on a list three elements at a time. *)
Lemma list_ind3 (A : Type) (P : list A -> Prop) :
  P [] ->
  (forall a, P [a]) ->
  (forall a b, P [a; b]) ->
  (forall a b c rest, P rest -> P (a :: b :: c :: rest)) ->
  forall l, P l.
Proof.
  intros H0 H1 H2 H3.
  fix IH 1.
  intros [|a [|b [|c rest]]];
    [exact H0 | apply H1 | apply H2 | apply H3; apply IH].
Qed.

Lemma encode_digits_and_padding bytes :
  Base64.encode bytes
  = List.map Base64.digit (sextetsOf bytes) ++ repeat Base64.pad (padding bytes).
Proof.
  induction bytes as [| a | a b | a b c rest IH] using list_ind3;
    try reflexivity.
  cbn [Base64.encode sextetsOf padding]. rewrite IH, map_app, <- app_assoc.
  reflexivity.
Qed.

(** A digit is a letter of the alphabet, or the code unit 0 for a group
    beyond 63. *)
Lemma digit_cases n : In (Base64.digit n) Base64.alphabet \/ Base64.digit n = 0%N.
Proof.
  unfold Base64.digit.
  destruct (nth_in_or_default (N.to_nat n) Base64.alphabet 0%N); auto.
Qed.

Lemma digit_not_whitespace n : Page.isAsciiWhitespace (Base64.digit n) = false.
Proof.
  destruct (digit_cases n) as [H | ->]; [|reflexivity].
  assert (F : Forall (fun c => Page.isAsciiWhitespace c = false) Base64.alphabet)
    by (repeat constructor).
  exact (proj1 (Forall_forall _ _) F _ H).
Qed.

Lemma digit_not_pad n : N.eqb (Base64.digit n) 61 = false.
Proof.
  destruct (digit_cases n) as [H | ->]; [|reflexivity].
  assert (F : Forall (fun c => N.eqb c 61 = false) Base64.alphabet)
    by (repeat constructor).
  exact (proj1 (Forall_forall _ _) F _ H).
Qed.

Lemma sextet_digit n : (n < 64)%N -> Page.sextet (Base64.digit n) = Some n.
Proof.
  intros H. destruct n as [|p]; [reflexivity|].
  do 6 (destruct p as [p|p|]; try reflexivity).
  all: exfalso; lia.
Qed.

Lemma sextets_of_digits ns :
  Forall (fun n => (n < 64)%N) ns ->
  Page.sextets (List.map Base64.digit ns) = Some ns.
Proof.
  induction 1 as [|n ns Hn _ IH]; [reflexivity|].
  cbn [List.map Page.sextets]. rewrite (sextet_digit Hn), IH. reflexivity.
Qed.

Ltac Zify.zify_post_hook ::= Z.to_euclidean_division_equations.

Lemma sextetsOf_small bytes :
  Forall (fun b => (b < 256)%N) bytes ->
  Forall (fun n => (n < 64)%N) (sextetsOf bytes).
Proof.
  induction bytes as [| a | a b | a b c rest IH] using list_ind3; intros H.
  - constructor.
  - inversion_clear H. cbn [sextetsOf]. repeat constructor; lia.
  - inversion_clear H as [|? ? Ha H']. inversion_clear H' as [|? ? Hb _].
    cbn [sextetsOf]. repeat constructor; lia.
  - inversion_clear H as [|? ? Ha H']. inversion_clear H' as [|? ? Hb H''].
    inversion_clear H'' as [|? ? Hc Hrest].
    cbn [sextetsOf app]. repeat (constructor; [lia|]). exact (IH Hrest).
Qed.

Lemma octets_of_sextets bytes :
  Forall (fun b => (b < 256)%N) bytes ->
  Page.octets (sextetsOf bytes) = bytes.
Proof.
  induction bytes as [| a | a b | a b c rest IH] using list_ind3; intros H.
  - reflexivity.
  - inversion_clear H. cbn [sextetsOf Page.octets]. f_equal. lia.
  - inversion_clear H as [|? ? Ha H']. inversion_clear H' as [|? ? Hb _].
    cbn [sextetsOf Page.octets]. repeat f_equal; lia.
  - inversion_clear H as [|? ? Ha H']. inversion_clear H' as [|? ? Hb H''].
    inversion_clear H'' as [|? ? Hc Hrest].
    cbn [sextetsOf Page.octets app]. rewrite (IH Hrest). repeat f_equal; lia.
Qed.

Lemma filter_all (A : Type) (f : A -> bool) (l : list A) :
  Forall (fun x => f x = true) l -> filter f l = l.
Proof.
  induction 1 as [|x l Hx _ IH]; [reflexivity|].
  cbn. rewrite Hx, IH. reflexivity.
Qed.

Lemma encode_has_no_whitespace bytes :
  filter (fun c => negb (Page.isAsciiWhitespace c)) (Base64.encode bytes)
  = Base64.encode bytes.
Proof.
  apply filter_all. rewrite encode_digits_and_padding.
  apply Forall_app. split.
  - apply Forall_forall. intros c Hc. apply in_map_iff in Hc.
    destruct Hc as (n & <- & _). rewrite digit_not_whitespace. reflexivity.
  - apply Forall_forall. intros c Hc. apply repeat_spec in Hc. subst c.
    reflexivity.
Qed.

Lemma dropPad_pad s : Page.dropPad (s ++ [Base64.pad]) = s.
Proof.
  unfold Page.dropPad. rewrite rev_unit. cbn. apply rev_involutive.
Qed.

Lemma dropPad_digits s :
  Forall (fun c => N.eqb c 61 = false) s -> Page.dropPad s = s.
Proof.
  intros H. unfold Page.dropPad. destruct (rev s) as [|c r] eqn:E; [reflexivity|].
  assert (Hc : In c s) by (apply in_rev; rewrite E; left; reflexivity).
  rewrite (proj1 (Forall_forall _ _) H c Hc). reflexivity.
Qed.

Lemma padding_le_2 bytes : padding bytes <= 2.
Proof.
  induction bytes as [| a | a b | a b c rest IH] using list_ind3; cbn; lia.
Qed.

Lemma dropPad_encode bytes :
  Page.dropPad (Page.dropPad (Base64.encode bytes))
  = List.map Base64.digit (sextetsOf bytes).
Proof.
  rewrite encode_digits_and_padding.
  assert (H : Forall (fun c => N.eqb c 61 = false)
                     (List.map Base64.digit (sextetsOf bytes))).
  { apply Forall_forall. intros c Hc. apply in_map_iff in Hc.
    destruct Hc as (n & <- & _). apply digit_not_pad. }
  pose proof (padding_le_2 bytes) as Hp.
  destruct (padding bytes) as [|[|[|k]]]; [| | |lia]; cbn [repeat].
  - rewrite app_nil_r. rewrite (dropPad_digits H). exact (dropPad_digits H).
  - rewrite dropPad_pad. exact (dropPad_digits H).
  - change [Base64.pad; Base64.pad] with ([Base64.pad] ++ [Base64.pad]).
    rewrite app_assoc, !dropPad_pad. reflexivity.
Qed.

Lemma encode_length bytes :
  exists q, List.length (Base64.encode bytes) = 4 * q.
Proof.
  induction bytes as [| a | a b | a b c rest [q IH]] using list_ind3.
  - exists 0. reflexivity.
  - exists 1. reflexivity.
  - exists 1. reflexivity.
  - exists (S q). cbn [Base64.encode]. rewrite length_app, IH. cbn. lia.
Qed.

Lemma sextetsOf_length bytes :
  exists q r, List.length (sextetsOf bytes) = 4 * q + r /\ (r = 0 \/ r = 2 \/ r = 3).
Proof.
  induction bytes as [| a | a b | a b c rest (q & r & IH & Hr)] using list_ind3.
  - exists 0, 0. auto.
  - exists 0, 2. auto.
  - exists 0, 3. auto.
  - exists (S q), r. split; [|exact Hr].
    cbn [sextetsOf]. rewrite length_app, IH. cbn. lia.
Qed.

(** X12. The audio survives the trip: the bytes the page rebuilds from
    [audioBase64] with [atob] are the bytes the handler encoded. *)
Theorem audio_round_trip bytes :
  Forall (fun b => (b < 256)%N) bytes ->
  Page.audioBytes (Base64.encode bytes) = Some bytes.
Proof.
  intros H. unfold Page.audioBytes, Page.atob.
  rewrite encode_has_no_whitespace.
  destruct (encode_length bytes) as (q & Hq).
  unfold JsString.length. rewrite Hq.
  replace ((4 * q) mod 4) with 0
    by (rewrite Nat.mul_comm, Nat.Div0.mod_mul; reflexivity).
  cbn [Nat.eqb].
  rewrite dropPad_encode, length_map.
  destruct (sextetsOf_length bytes) as (k & r & Hk & Hr). rewrite Hk.
  replace ((4 * k + r) mod 4) with r
    by (rewrite Nat.add_comm, Nat.mul_comm, Nat.Div0.mod_add;
        destruct Hr as [-> | [-> | ->]]; reflexivity).
  replace (Nat.eqb r 1) with false
    by (destruct Hr as [-> | [-> | ->]]; reflexivity).
  rewrite (sextets_of_digits (sextetsOf_small H)). cbn [option_map].
  rewrite (octets_of_sextets H). f_equal.
  clear q Hq k r Hk Hr.
  induction H as [|b bytes Hb _ IH]; [reflexivity|].
  cbn [List.map]. rewrite IH, (N.mod_small _ _ Hb). reflexivity.
Qed.

Lemma audio_round_trip_witness :
  Page.audioBytes (Base64.encode Sample.audio) = Some Sample.audio.
Proof.
  apply audio_round_trip. unfold Sample.audio.
  repeat constructor.
Defined.

(* ================================================================= *)
(** ** The page and the handler together *)

(** Every run answers, with a 200 around a script or an error status
    around a message. *)
Lemma POST_answers w :
  exists r, response (POST w) = Some r /\ wellFormed r.
Proof.
  unfold_handler.
  repeat (branch; cbn [fst snd body status wellFormed] in * ).
  all: try (eexists; split; [reflexivity|]; unfold wellFormed; cbn; auto).
  all: try match goal with a : Empty_set |- _ => destruct a end.
  all: unfold wellFormed; cbn;
    match goal with
    | |- context [statusOf ?m] => destruct (statusOf_cases m) as [-> | ->]; auto
    end.
Qed.

(** What the [try] block of the page makes of the handler's answer. *)
Lemma request_to_server w ts payload r :
  response (POST (withBody w (resolved payload))) = Some r ->
  Page.request (browserOf w ts) payload
  = match body r with
    | error_body m => inl m
    | success_body _ _ => inr (bodyJson (body r))
    end.
Proof.
  intros Hr.
  destruct (POST_answers (withBody w (resolved payload))) as (r' & Hr' & Hwf).
  rewrite Hr in Hr'. injection Hr' as <-.
  unfold Page.request, browserOf, serverFetch. cbn [Page.fetch]. rewrite Hr.
  cbn [Page.ok Page.res_json]. unfold wellFormed in Hwf.
  destruct (body r) as [m | s a].
  - destruct Hwf as [-> | [-> | [-> | ->]]]; reflexivity.
  - rewrite Hwf. reflexivity.
Qed.

(** X13. A submission settles: with a blank input or while one is in
    flight nothing is sent and the state is untouched; otherwise exactly
    one request is sent, carrying the payload of the state, the inputs
    are kept, [loading] is false again at the end, and [error] and
    [result] are never both set: a failed request leaves its message in
    [error] and no result, a successful one leaves no error and the parsed
    body in [result], which is no result when the body is a JSON null. *)
Theorem submit_settles b st :
  (Page.hasContent st = false \/ Page.loading st = true ->
   Page.handleSubmit b st = (st, []))
  /\
  (Page.hasContent st = true -> Page.loading st = false ->
   exists st',
     Page.handleSubmit b st = (st', [Page.payloadOf st])
     /\ Page.loading st' = false
     /\ (Page.mode st', Page.textInput st', Page.urlInput st',
         Page.videoInput st', Page.voice st')
        = (Page.mode st, Page.textInput st, Page.urlInput st,
           Page.videoInput st, Page.voice st)
     /\ ((exists m,
             Page.request b (Page.payloadOf st) = inl m
             /\ Page.error st' = Some m /\ Page.result st' = None)
         \/ (exists d,
                Page.request b (Page.payloadOf st) = inr d
                /\ Page.error st' = None /\ Page.result st' = Page.stored d))).
Proof.
  unfold Page.handleSubmit. split.
  - intros [H | H]; rewrite H; [reflexivity|].
    rewrite orb_true_r. reflexivity.
  - intros Hc Hl. rewrite Hc, Hl. cbn [negb orb].
    eexists. split; [reflexivity|].
    destruct (Page.request b (Page.payloadOf st)) as [m | d]; cbn.
    + repeat split. left. eauto.
    + repeat split. right. eauto.
Qed.

(** X14. The page shows what the handler answered: after a submission
    that reached the handler, [error] is the handler's error message and
    [result] is empty, or [result] is the handler's script and audio and
    [error] is empty. *)
Theorem page_shows_the_answer w ts st r :
  Page.hasContent st = true ->
  Page.loading st = false ->
  response (POST (withBody w (resolved (Page.payloadOf st)))) = Some r ->
  let st' := fst (Page.handleSubmit (browserOf w ts) st) in
  Page.loading st' = false
  /\ match body r with
     | error_body m =>
         Page.error st' = Some m /\ Page.result st' = None
     | success_body s a =>
         Page.result st'
         = Some (JObject [(js "script", JString s); (js "audioBase64", JString a)])
         /\ Page.error st' = None
     end.
Proof.
  intros Hc Hl Hr. unfold Page.handleSubmit. rewrite Hc, Hl. cbn [negb orb fst].
  rewrite (request_to_server w ts _ Hr).
  destruct (body r) as [m | s a]; cbn; auto.
Qed.

(** The issues of a payload whose mode is a literal and whose voice,
    content and videoUrl raise none are those of its url; likewise for
    its videoUrl. *)
Lemma issues_of_url lib fields s m :
  get (js "mode") fields = Some (JString s) ->
  Mode.decode s = Some m ->
  voiceOk lib fields -> contentOk lib fields -> videoUrlOk lib fields ->
  shapeIssues lib fields
  = Zod.issues (urlSchema lib [js "url"] (get (js "url") fields)).
Proof.
  intros Hm Hd Hv Hc Hw. unfold shapeIssues.
  rewrite (mode_parsed lib fields Hm Hd). cbn [Zod.issues].
  unfold voiceOk, contentOk, videoUrlOk in *. rewrite Hv, Hc, Hw.
  cbn [app]. apply app_nil_r.
Qed.

Lemma issues_of_videoUrl lib fields s m :
  get (js "mode") fields = Some (JString s) ->
  Mode.decode s = Some m ->
  voiceOk lib fields -> contentOk lib fields -> urlOk lib fields ->
  shapeIssues lib fields
  = Zod.issues (videoUrlSchema lib [js "videoUrl"] (get (js "videoUrl") fields)).
Proof.
  intros Hm Hd Hv Hc Hu. unfold shapeIssues.
  rewrite (mode_parsed lib fields Hm Hd). cbn [Zod.issues].
  unfold voiceOk, contentOk, urlOk in *. rewrite Hv, Hc, Hu.
  reflexivity.
Qed.

(** The run on a text payload whose content trims below the minimum and
    whose other keys raise no issue. *)
Lemma short_text_run w fields c :
  request_json w = resolved (JObject fields) ->
  get (js "mode") fields = Some (JString (js "text")) ->
  get (js "content") fields = Some (JString c) ->
  JsString.length (trim c) < 50 ->
  voiceOk (zod w) fields -> urlOk (zod w) fields -> videoUrlOk (zod w) fields ->
  POST w
  = (returned
       (mkResponse
          (error_body (if Nat.ltb (JsString.length c) 50
                       then js "Provide at least 50 characters of text."
                       else js "Please provide at least 50 characters of text."))
          400%N),
     []).
Proof.
  intros Hj Hmode Hc Hlen Hv Hu Hw.
  assert (E : shapeIssues (zod w) fields
              = if Nat.ltb (JsString.length c) 50
                then [Zod.issue (zod w) (Zod.too_small 50) [js "content"]
                        (Some (js "Provide at least 50 characters of text."))]
                else []).
  { rewrite (@issues_of_content (zod w) fields _ _ Hmode eq_refl Hv Hu Hw).
    unfold contentSchema, Zod.optional, Zod.string_. rewrite Hc.
    cbn [Zod.issues Zod.runChecks Zod.violates Zod.checkIssue].
    destruct (Nat.ltb (JsString.length c) 50); reflexivity. }
  destruct (Nat.ltb (JsString.length c) 50) eqn:Eraw.
  - assert (R : requestSchema (zod w) (JObject fields)
                = failure (shapeIssues (zod w) fields))
      by (apply requestSchema_failure; rewrite E; discriminate).
    rewrite E in R. rewrite (POST_invalid w Hj R). reflexivity.
  - destruct (requestSchema_success (zod w) fields E)
      as (m & v & cd & u & x & R & Vm & _ & Vc & _).
    rewrite (mode_parsed (zod w) fields Hmode eq_refl) in Vm.
    cbn in Vm. injection Vm as <-.
    unfold contentSchema, Zod.optional, Zod.string_ in Vc. rewrite Hc in Vc.
    cbn in Vc. injection Vc as <-.
    apply POST_text_short with (1 := Hj) (2 := R); [reflexivity | exact Hlen].
Qed.

(** The run on a url payload whose other keys raise no issue: refused as
    not a URL, or started by the page extractor on that url. *)
Lemma url_run w fields u :
  request_json w = resolved (JObject fields) ->
  get (js "mode") fields = Some (JString (js "url")) ->
  get (js "url") fields = Some (JString u) ->
  u <> [] ->
  voiceOk (zod w) fields -> contentOk (zod w) fields -> videoUrlOk (zod w) fields ->
  if Zod.isUrl (zod w) u
  then exists rest, trace (POST w) = call_extractFromUrl u :: rest
  else POST w
       = (returned (mkResponse
                      (error_body (Zod.errorMap (zod w) Zod.invalid_string_url))
                      400%N), []).
Proof.
  intros Hj Hmode Hu Hne Hv Hc Hw.
  assert (E : shapeIssues (zod w) fields
              = if Zod.isUrl (zod w) u then []
                else [Zod.issue (zod w) Zod.invalid_string_url [js "url"] None]).
  { rewrite (@issues_of_url (zod w) fields _ _ Hmode eq_refl Hv Hc Hw).
    unfold urlSchema, Zod.optional, Zod.string_. rewrite Hu.
    cbn [Zod.issues Zod.runChecks Zod.violates Zod.checkIssue].
    destruct (Zod.isUrl (zod w) u); reflexivity. }
  destruct (Zod.isUrl (zod w) u).
  - destruct (requestSchema_success (zod w) fields E)
      as (m & v & cd & x & y & R & Vm & _ & _ & Vu & _).
    rewrite (mode_parsed (zod w) fields Hmode eq_refl) in Vm.
    cbn in Vm. injection Vm as <-.
    unfold urlSchema, Zod.optional, Zod.string_ in Vu. rewrite Hu in Vu.
    cbn in Vu. injection Vu as <-.
    apply falsy_Some_false in Hne.
    unfold_handler. rewrite Hj, R. cbn [mode url]. rewrite Hne.
    repeat (branch; cbn [fst snd app] in * ).
    all: try match goal with a : Empty_set |- _ => destruct a end.
    all: eexists; reflexivity.
  - assert (R : requestSchema (zod w) (JObject fields)
                = failure (shapeIssues (zod w) fields))
      by (apply requestSchema_failure; rewrite E; discriminate).
    rewrite E in R. rewrite (POST_invalid w Hj R). reflexivity.
Qed.

Lemma video_run w fields u :
  request_json w = resolved (JObject fields) ->
  get (js "mode") fields = Some (JString (js "video")) ->
  get (js "videoUrl") fields = Some (JString u) ->
  u <> [] ->
  voiceOk (zod w) fields -> contentOk (zod w) fields -> urlOk (zod w) fields ->
  if Zod.isUrl (zod w) u
  then exists rest, trace (POST w) = call_extractFromYouTube u :: rest
  else POST w
       = (returned (mkResponse
                      (error_body (Zod.errorMap (zod w) Zod.invalid_string_url))
                      400%N), []).
Proof.
  intros Hj Hmode Hu Hne Hv Hc Hw.
  assert (E : shapeIssues (zod w) fields
              = if Zod.isUrl (zod w) u then []
                else [Zod.issue (zod w) Zod.invalid_string_url [js "videoUrl"] None]).
  { rewrite (@issues_of_videoUrl (zod w) fields _ _ Hmode eq_refl Hv Hc Hw).
    unfold videoUrlSchema, Zod.optional, Zod.string_. rewrite Hu.
    cbn [Zod.issues Zod.runChecks Zod.violates Zod.checkIssue].
    destruct (Zod.isUrl (zod w) u); reflexivity. }
  destruct (Zod.isUrl (zod w) u).
  - destruct (requestSchema_success (zod w) fields E)
      as (m & v & cd & x & y & R & Vm & _ & _ & _ & Vu).
    rewrite (mode_parsed (zod w) fields Hmode eq_refl) in Vm.
    cbn in Vm. injection Vm as <-.
    unfold videoUrlSchema, Zod.optional, Zod.string_ in Vu. rewrite Hu in Vu.
    cbn in Vu. injection Vu as <-.
    apply falsy_Some_false in Hne.
    unfold_handler. rewrite Hj, R. cbn [mode videoUrl]. rewrite Hne.
    repeat (branch; cbn [fst snd app] in * ).
    all: try match goal with a : Empty_set |- _ => destruct a end.
    all: eexists; reflexivity.
  - assert (R : requestSchema (zod w) (JObject fields)
                = failure (shapeIssues (zod w) fields))
      by (apply requestSchema_failure; rewrite E; discriminate).
    rewrite E in R. rewrite (POST_invalid w Hj R). reflexivity.
Qed.

Lemma offered_voice_accepted v :
  In v (List.map Page.id Page.voices) -> voiceAccepted (JString v) = true.
Proof.
  cbn. intros [<- | [<- | [<- | []]]]; reflexivity.
Qed.

Lemma not_blank_not_empty s :
  Nat.ltb 0 (JsString.length (trim s)) = true -> s <> [].
Proof. intros H ->. discriminate H. Qed.

(** The keys of a payload the page built raise no issue but, possibly,
    the key of its mode. *)
Lemma page_voice_ok lib fields v :
  get (js "voice") fields = Some (JString v) ->
  In v (List.map Page.id Page.voices) ->
  voiceOk lib fields.
Proof.
  intros Hg Hv. unfold voiceOk.
  rewrite Hg, (voice_accepted lib _ v (@offered_voice_accepted v Hv)). reflexivity.
Qed.

(** X15. The page lets through what the handler refuses: pasted text
    that is not blank but trims to fewer than 50 code units is sent, the
    handler answers 400, and the page ends with the 50-character message
    in [error] and no result. *)
Theorem short_text_is_sent_and_refused w ts st :
  Page.mode st = Mode.text ->
  Page.loading st = false ->
  In (Page.voice st) (List.map Page.id Page.voices) ->
  0 < JsString.length (trim (Page.textInput st)) < 50 ->
  exists st' m,
    Page.handleSubmit (browserOf w ts) st = (st', [Page.payloadOf st])
    /\ Page.error st' = Some m
    /\ Page.result st' = None
    /\ includes m (js "at least 50 characters") = true.
Proof.
  intros Hm Hl Hv [Hlo Hhi].
  assert (Hc : Page.hasContent st = true).
  { unfold Page.hasContent. rewrite Hm. apply Nat.ltb_lt. exact Hlo. }
  set (fields := [(js "mode", JString (js "text"));
                  (js "voice", JString (Page.voice st));
                  (js "content", JString (Page.textInput st))]).
  assert (Hp : Page.payloadOf st = JObject fields).
  { unfold Page.payloadOf. rewrite Hm. reflexivity. }
  assert (Hrun : POST (withBody w (resolved (JObject fields)))
                 = (returned
                      (mkResponse
                         (error_body
                            (if Nat.ltb (JsString.length (Page.textInput st)) 50
                             then js "Provide at least 50 characters of text."
                             else js "Please provide at least 50 characters of text."))
                         400%N), [])).
  { apply (@short_text_run (withBody w (resolved (JObject fields))) fields
             (Page.textInput st)); try reflexivity; try exact Hhi.
    apply page_voice_ok with (v := Page.voice st); [reflexivity | exact Hv]. }
  unfold Page.handleSubmit. rewrite Hc, Hl. cbn [negb orb].
  rewrite Hp.
  rewrite (request_to_server w ts (JObject fields)
             (r := mkResponse _ 400%N) (f_equal response Hrun)).
  cbn [body].
  destruct (Nat.ltb (JsString.length (Page.textInput st)) 50).
  - eexists. exists (js "Provide at least 50 characters of text.").
    split; [reflexivity|]. split; [reflexivity|]. split; reflexivity.
  - eexists. exists (js "Please provide at least 50 characters of text.").
    split; [reflexivity|]. split; [reflexivity|]. split; reflexivity.
Qed.

(** X16. A url or video submission of the page never meets the
    missing-field answers: the handler either refuses the input as not a
    URL, with zod's message and no call, or its first call is the
    extractor of the mode on the input exactly as it was typed. *)
Theorem page_urls_reach_their_extractor w st :
  Page.hasContent st = true ->
  In (Page.voice st) (List.map Page.id Page.voices) ->
  (Page.mode st = Mode.url ->
   if Zod.isUrl (zod w) (Page.urlInput st)
   then exists rest,
       trace (POST (withBody w (resolved (Page.payloadOf st))))
       = call_extractFromUrl (Page.urlInput st) :: rest
   else POST (withBody w (resolved (Page.payloadOf st)))
        = (returned (mkResponse
                       (error_body (Zod.errorMap (zod w) Zod.invalid_string_url))
                       400%N), []))
  /\
  (Page.mode st = Mode.video ->
   if Zod.isUrl (zod w) (Page.videoInput st)
   then exists rest,
       trace (POST (withBody w (resolved (Page.payloadOf st))))
       = call_extractFromYouTube (Page.videoInput st) :: rest
   else POST (withBody w (resolved (Page.payloadOf st)))
        = (returned (mkResponse
                       (error_body (Zod.errorMap (zod w) Zod.invalid_string_url))
                       400%N), [])).
Proof.
  intros Hc Hv. unfold Page.hasContent in Hc. split; intros Hm; rewrite Hm in Hc.
  - unfold Page.payloadOf. rewrite Hm. cbn [app].
    apply (@url_run (withBody w _)
             [(js "mode", JString (js "url"));
              (js "voice", JString (Page.voice st));
              (js "url", JString (Page.urlInput st))]); try reflexivity.
    + exact (@not_blank_not_empty _ Hc).
    + apply page_voice_ok with (v := Page.voice st); [reflexivity | exact Hv].
  - unfold Page.payloadOf. rewrite Hm. cbn [app].
    apply (@video_run (withBody w _)
             [(js "mode", JString (js "video"));
              (js "voice", JString (Page.voice st));
              (js "videoUrl", JString (Page.videoInput st))]); try reflexivity.
    + exact (@not_blank_not_empty _ Hc).
    + apply page_voice_ok with (v := Page.voice st); [reflexivity | exact Hv].
Qed.

(* ================================================================= *)
(** ** The further properties at concrete requests *)

Lemma calls_follow_validation_witness :
  exists payload data,
    request_json (Sample.world Sample.textRequest) = resolved payload
    /\ requestSchema Sample.lib payload = success data.
Proof.
  apply (@calls_follow_validation (Sample.world Sample.textRequest)
           call_getOpenAIClient).
  - vm_compute. auto.
  - reflexivity.
Defined.

Lemma extractor_matches_mode_witness :
  (In (call_extractFromUrl (js "https://example.com/article"))
      (trace (POST (Sample.world Sample.urlRequest)))
   <-> Mode.url = Mode.url
       /\ Some (js "https://example.com/article")
          = Some (js "https://example.com/article")
       /\ js "https://example.com/article" <> [])
  /\
  (In (call_extractFromYouTube (js "https://example.com/article"))
      (trace (POST (Sample.world Sample.urlRequest)))
   <-> Mode.url = Mode.video
       /\ None = Some (js "https://example.com/article")
       /\ js "https://example.com/article" <> []).
Proof.
  apply (@extractor_matches_mode (Sample.world Sample.urlRequest)
           Sample.urlRequest
           (mkRequest Mode.url (js "alloy") None
                      (Some (js "https://example.com/article")) None)
           (js "https://example.com/article")); reflexivity.
Defined.

Lemma success_inversion_witness :
  exists payload data openai prompt out raw speech bytes,
    request_json (Sample.world Sample.textRequest) = resolved payload
    /\ requestSchema Sample.lib payload = success data
    /\ getOpenAIClient (Sample.world Sample.textRequest) = resolved openai
    /\ responses_create openai (scriptParams prompt) = resolved out
    /\ output_text out = Some raw
    /\ trim raw <> []
    /\ audio_speech_create openai
         (mkSpeechParams (js "gpt-4o-mini-tts") (voice data) (trim raw))
       = resolved speech
    /\ arrayBuffer speech = resolved bytes
    /\ success_body (js "Welcome to the show.") (js "SUQzBAA=")
       = success_body (trim raw) (Base64.encode bytes).
Proof.
  apply (@success_inversion (Sample.world Sample.textRequest)
           (mkResponse (success_body (js "Welcome to the show.") (js "SUQzBAA="))
                       200%N)); reflexivity.
Defined.

Lemma internal_error_is_caught_witness :
  exists e calls,
    trace (POST Sample.noCredentials) = calls ++ [console_error e]
    /\ Forall (fun ev => isCall ev = true) calls
    /\ error_body (js "OPENAI_API_KEY is not set") = error_body (messageOf e)
    /\ configurationFault e || unreachableNetworkFault e = true.
Proof.
  apply (@internal_error_is_caught Sample.noCredentials
           (mkResponse (error_body (js "OPENAI_API_KEY is not set")) 500%N));
    reflexivity.
Defined.

Lemma unprocessable_stops_after_extraction_witness :
  error_body (js "Unable to derive source material for the podcast.")
  = error_body (js "Unable to derive source material for the podcast.")
  /\ exists u text,
      falsy text = true
      /\ (trace (POST Sample.emptyPage) = [call_extractFromUrl u]
          /\ extractFromUrl Sample.emptyPage u = resolved text
          \/ trace (POST Sample.emptyPage) = [call_extractFromYouTube u]
             /\ extractFromYouTube Sample.emptyPage u = resolved text).
Proof.
  apply (@unprocessable_stops_after_extraction Sample.emptyPage
           (mkResponse
              (error_body (js "Unable to derive source material for the podcast."))
              422%N)); reflexivity.
Defined.

Lemma bad_gateway_stops_after_generation_witness :
  error_body
    (js "Failed to generate a script. Try again with different source material.")
  = error_body
      (js "Failed to generate a script. Try again with different source material.")
  /\ exists before openai prompt out,
      trace (POST Sample.generationSilent)
      = before ++ [call_getOpenAIClient; call_responses_create (scriptParams prompt)]
      /\ Forall (fun ev => stage ev = 0) before
      /\ getOpenAIClient Sample.generationSilent = resolved openai
      /\ responses_create openai (scriptParams prompt) = resolved out
      /\ falsy (option_map trim (output_text out)) = true.
Proof.
  apply (@bad_gateway_stops_after_generation Sample.generationSilent
           (mkResponse
              (error_body
                 (js "Failed to generate a script. Try again with different source material."))
              502%N)); reflexivity.
Defined.

Lemma non_object_body_witness :
  POST (Sample.world (JArray [JString (js "text")]))
  = (returned (mkResponse (error_body (js "Invalid input type")) 400%N), []).
Proof.
  apply (@non_object_body (Sample.world (JArray [JString (js "text")]))
           (JArray [JString (js "text")]) eq_refl).
  intros fields. discriminate.
Defined.

Lemma speech_call_is_well_formed_witness :
  js "gpt-4o-mini-tts" = js "gpt-4o-mini-tts"
  /\ voiceAccepted (JString (js "ALLOY")) = true
  /\ js "Welcome to the show." <> []
  /\ exists payload data,
      request_json (Sample.world Sample.upperVoice) = resolved payload
      /\ requestSchema Sample.lib payload = success data
      /\ js "ALLOY" = voice data.
Proof.
  apply (@speech_call_is_well_formed (Sample.world Sample.upperVoice)
           (mkSpeechParams (js "gpt-4o-mini-tts") (js "ALLOY")
                           (js "Welcome to the show."))).
  vm_compute. auto.
Defined.

Lemma generation_call_is_well_formed_witness :
  exists payload data text prompt,
    request_json (Sample.world Sample.urlRequest) = resolved payload
    /\ requestSchema Sample.lib payload = success data
    /\ buildScriptPrompt (Sample.world Sample.urlRequest)
         (mkPromptArgs text (mode data) (originOf data))
       = resolved prompt
    /\ scriptParams Sample.article = scriptParams prompt
    /\ input (scriptParams Sample.article)
       = [mkMessage (js "system") systemPrompt; mkMessage (js "user") prompt]
    /\ text <> []
    /\ (mode data = Mode.text ->
        exists c, content data = Some c /\ text = trim c
                  /\ 50 <= JsString.length text).
Proof.
  apply (@generation_call_is_well_formed (Sample.world Sample.urlRequest)
           (scriptParams Sample.article)).
  vm_compute. auto.
Defined.

Lemma submit_settles_witness :
  Page.handleSubmit (browserOf (Sample.world JNull) (fun _ => js "?"))
                    Page.initial
  = (Page.initial, [])
  /\ exists st',
      Page.handleSubmit (browserOf (Sample.world JNull) (fun _ => js "?"))
                        SamplePage.articleLink
      = (st', [Page.payloadOf SamplePage.articleLink])
      /\ Page.loading st' = false
      /\ (Page.mode st', Page.textInput st', Page.urlInput st',
          Page.videoInput st', Page.voice st')
         = (Mode.url, [], js "https://example.com/article", [], js "alloy")
      /\ ((exists m,
              Page.request (browserOf (Sample.world JNull) (fun _ => js "?"))
                           (Page.payloadOf SamplePage.articleLink) = inl m
              /\ Page.error st' = Some m /\ Page.result st' = None)
          \/ (exists d,
                 Page.request (browserOf (Sample.world JNull) (fun _ => js "?"))
                              (Page.payloadOf SamplePage.articleLink) = inr d
                 /\ Page.error st' = None /\ Page.result st' = Page.stored d)).
Proof.
  split.
  - apply (proj1 (submit_settles _ Page.initial)). left. reflexivity.
  - apply (proj2 (submit_settles _ SamplePage.articleLink)); reflexivity.
Defined.

Lemma page_shows_the_answer_witness :
  Page.loading
    (fst (Page.handleSubmit (browserOf (Sample.world JNull) (fun _ => js "?"))
                            SamplePage.notALink)) = false
  /\ Page.error
       (fst (Page.handleSubmit (browserOf (Sample.world JNull) (fun _ => js "?"))
                               SamplePage.notALink)) = Some (js "Invalid url")
  /\ Page.result
       (fst (Page.handleSubmit (browserOf (Sample.world JNull) (fun _ => js "?"))
                               SamplePage.notALink)) = None.
Proof.
  apply (@page_shows_the_answer (Sample.world JNull) (fun _ => js "?")
           SamplePage.notALink
           (mkResponse (error_body (js "Invalid url")) 400%N));
    reflexivity.
Defined.

Lemma short_text_is_sent_and_refused_witness :
  exists st' m,
    Page.handleSubmit (browserOf (Sample.world JNull) (fun _ => js "?"))
                      SamplePage.shortNote
    = (st', [Page.payloadOf SamplePage.shortNote])
    /\ Page.error st' = Some m
    /\ Page.result st' = None
    /\ includes m (js "at least 50 characters") = true.
Proof.
  apply (@short_text_is_sent_and_refused (Sample.world JNull) (fun _ => js "?")
           SamplePage.shortNote); try reflexivity.
  - left. reflexivity.
  - split; apply Nat.ltb_lt; reflexivity.
Defined.

Lemma page_urls_reach_their_extractor_witness :
  exists rest,
    trace (POST (withBody (Sample.world JNull)
                   (resolved (Page.payloadOf SamplePage.articleLink))))
    = call_extractFromUrl (js "https://example.com/article") :: rest.
Proof.
  exact (proj1 (@page_urls_reach_their_extractor (Sample.world JNull)
                  SamplePage.articleLink eq_refl
                  (or_introl eq_refl)) eq_refl).
Defined.

(** A 200 answer whose body is a JSON null leaves the page with neither
    an error nor a result. *)
Example null_body_leaves_no_result :
  Page.handleSubmit
    (Page.mkBrowser
       (fun _ => resolved (Page.mkFetchResponse true (resolved JNull)))
       (fun _ => js "?"))
    SamplePage.articleLink
  = (SamplePage.articleLink, [Page.payloadOf SamplePage.articleLink]).
Proof. reflexivity. Qed.
